(** * Venue Scout: provider abstraction and fallback execution

    A shallow embedding of the multi-provider search pipeline of
    [venue-scout] ([providers/base.py], [providers/factory.py], the four
    provider classes and [unified_search.py]) together with the properties
    its specification states about it.

    Conventions of the model.
    - Python [str] values are [string]s; the text handled here (provider
      names, class names, templates) is ASCII, and [str_lower] and
      [str_strip] follow Python on ASCII code points.
    - A Python exception is an [exn] carrying its class name and [str(e)].
      [sys.exit] is a separate outcome: [except Exception] does not catch it.
    - Everything outside the process (SDK calls, the clock, installed
      packages) is read from a [backend] record; each external call is
      indexed by a tick of the [world], so answers may differ from call to
      call.
    - Console output is not modelled; an expression evaluated only to be
      printed is modelled when its evaluation can raise. *)

From Stdlib Require Import ZArith String Ascii List Lia Bool Permutation Sorted.
From Stdlib Require Import DecimalString.
From stdpp Require Import base option list gmap strings.

Local Open Scope string_scope.
Local Open Scope Z_scope.

(** ** Python string operations *)

Module PyStr.

Definition is_upper (c : ascii) : bool :=
  let n := nat_of_ascii c in (65 <=? n)%nat && (n <=? 90)%nat.

Definition lower_char (c : ascii) : ascii :=
  if is_upper c then ascii_of_nat (nat_of_ascii c + 32) else c.

(** [str.lower()] *)
Fixpoint str_lower (s : string) : string :=
  match s with
  | EmptyString => EmptyString
  | String c s' => String (lower_char c) (str_lower s')
  end.

(** The ASCII code points for which [str.isspace()] holds. *)
Definition is_space (c : ascii) : bool :=
  let n := nat_of_ascii c in
  ((9 <=? n)%nat && (n <=? 13)%nat) || ((28 <=? n)%nat && (n <=? 32)%nat).

(** [str.lstrip()] *)
Fixpoint str_lstrip (s : string) : string :=
  match s with
  | EmptyString => EmptyString
  | String c s' => if is_space c then str_lstrip s' else s
  end.

(** [str.rstrip()] *)
Fixpoint str_rstrip (s : string) : string :=
  match s with
  | EmptyString => EmptyString
  | String c s' =>
      match str_rstrip s' with
      | EmptyString => if is_space c then EmptyString else String c EmptyString
      | r => String c r
      end
  end.

(** [str.strip()] *)
Definition str_strip (s : string) : string := str_rstrip (str_lstrip s).

(** [pat in s] *)
Fixpoint str_contains (pat s : string) : bool :=
  String.prefix pat s ||
  match s with
  | EmptyString => false
  | String _ s' => str_contains pat s'
  end.

Fixpoint replace_go (old new : string) (skip : nat) (s : string) : string :=
  match s with
  | EmptyString => EmptyString
  | String c s' =>
      match skip with
      | S k => replace_go old new k s'
      | O =>
          if String.prefix old s
          then new ++ replace_go old new (String.length old - 1) s'
          else String c (replace_go old new O s')
      end
  end.

Fixpoint intersperse (new s : string) : string :=
  match s with
  | EmptyString => new
  | String c s' => new ++ String c (intersperse new s')
  end.

(** [s.replace(old, new)]: every non-overlapping occurrence, left to right. *)
Definition str_replace (old new s : string) : string :=
  match old with
  | EmptyString => intersperse new s
  | _ => replace_go old new O s
  end.

(** [sep.join(parts)] *)
Fixpoint str_join (sep : string) (parts : list string) : string :=
  match parts with
  | [] => EmptyString
  | [p] => p
  | p :: rest => p ++ sep ++ str_join sep rest
  end.

(** Truth value of a [str]: the empty string is falsy. *)
Definition str_truthy (s : string) : bool :=
  match s with EmptyString => false | _ => true end.

End PyStr.
Import PyStr.

(** ** Exceptions and outcomes *)

(** A raised exception: its class and the text [str(e)] gives. *)
Record exn := Exn { exn_class : string; exn_str : string }.

(** How a Python call ends: a value, an exception of class [Exception], or
    [SystemExit] (raised by [sys.exit], not caught by [except Exception]). *)
Inductive outcome (A : Type) : Type :=
| Ok (a : A)
| Raise (e : exn)
| SysExit (code : Z).
Arguments Ok {A} a.
Arguments Raise {A} e.
Arguments SysExit {A} code.

Definition obind {A B} (o : outcome A) (k : A -> outcome B) : outcome B :=
  match o with
  | Ok a => k a
  | Raise e => Raise e
  | SysExit c => SysExit c
  end.

(** ** Data model *)

(** One search task, the dict built by [build_search_queries]. *)
Record query_t := Query {
  q_query : string;
  q_type : string;
  q_region : string;
  q_city : string;
  q_priority : Z
}.

(** Values stored in a result dict. *)
Inductive value :=
| VNone
| VStr (s : string)
| VBool (b : bool)
| VQuery (q : query_t).

(** Truth value of a Python object. *)
Definition truthy (v : value) : bool :=
  match v with
  | VNone => false
  | VStr s => str_truthy s
  | VBool b => b
  | VQuery _ => true
  end.

(** A standardized search result: the dict returned by every provider. *)
Abbreviation search_result := (gmap string value).

(** [d[key]]: raises [KeyError] when the key is absent. *)
Definition getitem (d : search_result) (key : string) : outcome value :=
  match d !! key with
  | Some v => Ok v
  | None => Raise (Exn "KeyError" ("'" ++ key ++ "'"))
  end.

(** [len(v)] *)
Definition py_len (v : value) : outcome nat :=
  match v with
  | VNone => Raise (Exn "TypeError" "object of type 'NoneType' has no len()")
  | VStr s => Ok (String.length s)
  | VBool _ => Raise (Exn "TypeError" "object of type 'bool' has no len()")
  | VQuery _ => Ok 5%nat
  end.

(** The dict written by [execute_searches] to the results file. *)
Record output_data := OutputData {
  od_date : string;
  od_provider : string;
  od_queries_run : nat;
  od_successful : nat;
  od_results : list search_result
}.

(** *** Configuration ([venues.toml]) *)

Record region_data := RegionData {
  rd_name : option string;
  rd_priority : option Z;
  rd_cities : option (list string)
}.

Record claude_config := ClaudeConfig {
  cc_model : option string;
  cc_max_tokens : option Z;
  cc_web_search_tool_version : option string
}.

Record openrouter_config := OpenRouterConfig {
  orc_model : option string;
  orc_max_tokens : option Z;
  orc_max_search_results : option Z
}.

Record ollama_config := OllamaConfig {
  oc_model : option string;
  oc_base_url : option string;
  oc_max_tokens : option Z;
  oc_enable_web_search : option bool
}.

Record mcp_server_config := McpServerConfig {
  msc_server_executable : option string;
  msc_server_args : option (list string)
}.

Record mcp_config := McpConfig {
  mc_server_type : option string;
  mc_model : option string;
  mc_max_results : option Z;
  mc_max_tokens : option Z;
  mc_server_config : option mcp_server_config
}.

(** The [search_provider] table. *)
Record provider_config := ProviderConfig {
  pc_default_provider : option string;
  pc_fallback_providers : option (list string);
  pc_claude : option claude_config;
  pc_openrouter : option openrouter_config;
  pc_ollama : option ollama_config;
  pc_mcp : option mcp_config
}.

(** The whole configuration. [regions] keeps the order of the file, which
    [dict.items()] follows. *)
Record config := Config {
  cfg_search_templates : option (gmap string (list string));
  cfg_regions : option (list (string * region_data));
  cfg_search_provider : option provider_config
}.

(** [d.get(key, default)] on an optional field. *)
Definition get {A} (field : option A) (dflt : A) : A := default dflt field.

Definition empty_claude_config := ClaudeConfig None None None.
Definition empty_openrouter_config := OpenRouterConfig None None None.
Definition empty_ollama_config := OllamaConfig None None None None.
Definition empty_mcp_server_config := McpServerConfig None None.
Definition empty_mcp_config := McpConfig None None None None None.
Definition empty_provider_config := ProviderConfig None None None None None None.

(** ** The outside world *)

(** SDK client handles, identified by what they were built from. *)
Record anthropic_client := AnthropicClient { ac_api_key : option string }.
Record openai_client := OpenAIClient {
  oa_base_url : option string;
  oa_api_key : option string
}.
Record server_params := StdioServerParameters {
  sp_command : string;
  sp_args : list string;
  sp_env : option (list (string * option string))
}.
Record mcp_client := MCPClient { mcpc_params : server_params }.

(** A content block of an Anthropic response; [cb_text] is [None] when the
    block has no [text] attribute. *)
Record content_block := ContentBlock { cb_text : option string }.

Record chat_message := ChatMessage { cm_role : string; cm_content : string }.

Record anthropic_request := AnthropicRequest {
  ar_model : string;
  ar_max_tokens : Z;
  ar_tools : list (string * string);
  ar_messages : list chat_message
}.

Record openai_request := OpenAIRequest {
  or_model : string;
  or_max_tokens : Z;
  or_messages : list chat_message
}.

Record ollama_request := OllamaRequest {
  olr_model : string;
  olr_messages : list chat_message;
  olr_num_predict : Z
}.

(** Response of [ollama.chat]: a dict whose [message] and [content] keys
    may be absent. *)
Record ollama_message := OllamaMessage { om_content : option string }.
Record ollama_response := OllamaResponse { ors_message : option ollama_message }.

(** Everything the process reads from outside. Each call takes the tick at
    which it happens. The last field stands for the part of Python's
    [str.format] that is not written out below. *)
Record backend := Backend {
  anthropic_pkg : bool;
  openai_pkg : bool;
  ollama_pkg : bool;
  mcp_pkg : bool;
  now_isoformat : nat -> string;
  now_strftime : nat -> string;
  anthropic_messages_create :
    nat -> anthropic_client -> anthropic_request -> exn + list content_block;
  openai_chat_create :
    nat -> openai_client -> openai_request -> exn + list string;
  ollama_list : nat -> exn + list (option string);
  ollama_chat : nat -> ollama_request -> exn + ollama_response;
  (** [rest.format(city=city, region=region)] for a template remainder
      [rest] that starts inside a replacement field using a conversion, a
      format spec, an attribute or an index ([!], [:], [.], [[]). *)
  str_format_rest : string -> string -> string -> exn + string
}.

(** Calls of provider methods and writes of result files, recorded as they
    happen. [id] is the identity of the provider object. *)
Inductive event :=
| EvValidate (id : nat) (ok : bool)
| EvSearch (id : nat) (query : string)
| EvWrite (path : string).

(** Mutable process state. *)
Record world := World {
  w_tick : nat;
  w_environ : gmap string string;
  w_next_id : nat;
  w_files : gmap string output_data
}.

(** ** Effectful computations *)

(** A computation over a state [St]: it ends in an [outcome], leaves a
    state behind (also when it raises) and records the provider calls made. *)
Definition MS (St A : Type) : Type := St -> outcome A * St * list event.

(** Computations of the process: the state is the [world]. *)
Abbreviation M := (MS world).

Definition ret {St A} (a : A) : MS St A := fun s => (Ok a, s, []).

Definition bind {St A B} (m : MS St A) (k : A -> MS St B) : MS St B :=
  fun s =>
    match m s with
    | (Ok a, s1, t1) =>
        match k a s1 with
        | (r, s2, t2) => (r, s2, (t1 ++ t2)%list)
        end
    | (Raise e, s1, t1) => (Raise e, s1, t1)
    | (SysExit c, s1, t1) => (SysExit c, s1, t1)
    end.

Notation "'do' x <- m ; k" := (bind m (fun x => k))
  (at level 10, x name, m at level 100, k at level 200).

(** [raise e] *)
Definition raise {St A} (e : exn) : MS St A := fun s => (Raise e, s, []).

(** [sys.exit(code)] *)
Definition sys_exit {St A} (code : Z) : MS St A := fun s => (SysExit code, s, []).

(** Run a pure computation that may raise. *)
Definition lift {St A} (o : outcome A) : MS St A := fun s => (o, s, []).

(** [try: body  except Exception as e: handler e] *)
Definition try_except {St A} (body : MS St A) (handler : exn -> MS St A) : MS St A :=
  fun s =>
    match body s with
    | (Raise e, s1, t1) =>
        match handler e s1 with
        | (r, s2, t2) => (r, s2, (t1 ++ t2)%list)
        end
    | r => r
    end.

Definition log {St} (ev : event) : MS St unit := fun s => (Ok tt, s, [ev]).

(** *** Methods of a mutable object

    A method that assigns to [self] runs over the pair of the object and the
    world, so that an assignment made before an exception is kept. *)

Definition get_self {S W} : MS (S * W) S := fun s => (Ok (fst s), s, []).

Definition set_self {S W} (self : S) : MS (S * W) unit :=
  fun s => (Ok tt, (self, snd s), []).

(** A computation of the process, run inside a method. *)
Definition in_world {S W A} (m : MS W A) : MS (S * W) A :=
  fun s =>
    match m (snd s) with
    | (r, w, t) => (r, (fst s, w), t)
    end.

(** Call a method on the object [self]; the object comes back with the
    value. *)
Definition call_method {S W A} (m : MS (S * W) A) (self : S) : MS W (A * S) :=
  fun w =>
    match m (self, w) with
    | (Ok a, (self', w'), t) => (Ok (a, self'), w', t)
    | (Raise e, (_, w'), t) => (Raise e, w', t)
    | (SysExit c, (_, w'), t) => (SysExit c, w', t)
    end.

(** The world one tick later. *)
Definition advance (w : world) : world :=
  World (S (w_tick w)) (w_environ w) (w_next_id w) (w_files w).

(** An external call: reads the tick and advances it. *)
Definition external {A} (call : nat -> exn + A) : M A :=
  fun w =>
    let w' := advance w in
    match call (w_tick w) with
    | inl e => (Raise e, w', [])
    | inr a => (Ok a, w', [])
    end.

(** [os.environ.get(key)] *)
Definition environ_get (key : string) : M (option string) :=
  fun w => (Ok (w_environ w !! key), w, []).

(** [os.environ[key] = v] *)
Definition environ_set (key v : string) : M unit :=
  fun w =>
    (Ok tt, World (w_tick w) (<[key := v]> (w_environ w)) (w_next_id w) (w_files w), []).

(** Identity of a newly allocated object. *)
Definition fresh_id : M nat :=
  fun w =>
    (Ok (w_next_id w),
     World (w_tick w) (w_environ w) (S (w_next_id w)) (w_files w), []).

(** [with open(path, "w") as f: json.dump(data, f)] *)
Definition write_file (path : string) (data : output_data) : M unit :=
  fun w =>
    (Ok tt,
     World (w_tick w) (w_environ w) (w_next_id w) (<[path := data]> (w_files w)),
     [EvWrite path]).


(** [datetime.now()] rendered by [render]. *)
Definition now (render : nat -> string) : M string :=
  external (fun t => inr (render t)).

(** ** [providers/base.py] *)

(** [not success and error]: [error] is [None] or a string. *)
Definition error_truthy (error : option string) : bool :=
  match error with
  | None => false
  | Some msg => str_truthy msg
  end.

Section Providers.

Variable env : backend.

(** [SearchProvider._standardize_result] *)
Definition _standardize_result (raw_result : value) (query_info : query_t)
    (success : bool) (error : option string) : M search_result :=
  do timestamp <- now (now_isoformat env);
  let result : search_result :=
    <["timestamp" := VStr timestamp]>
      (<["success" := VBool success]>
         (<["text" := raw_result]>
            (<["query_info" := VQuery query_info]> ∅))) in
  if negb success && error_truthy error
  then ret (<["error" := VStr (default "" error)]> result)
  else ret result.

(** [SearchProvider.get_provider_name], from the class name. *)
Definition get_provider_name_of (class_name : string) : string :=
  str_lower (str_replace "Provider" "" class_name).

(** *** [providers/claude_provider.py] *)

Record ClaudeProvider := MkClaudeProvider {
  cl_id : nat;
  cl_config : config;
  cl_provider_config : provider_config;
  cl_model : string;
  cl_max_tokens : Z;
  cl_web_search_tool_version : string;
  cl_client : option anthropic_client
}.

(** [ClaudeProvider.__init__] *)
Definition ClaudeProvider_init (cfg : config) : M ClaudeProvider :=
  do id <- fresh_id;
  let provider_config := get (cfg_search_provider cfg) empty_provider_config in
  let claude_config := get (pc_claude provider_config) empty_claude_config in
  let model := get (cc_model claude_config) "claude-sonnet-4-20250514" in
  let max_tokens := get (cc_max_tokens claude_config) 2000 in
  let web_search_tool_version :=
    get (cc_web_search_tool_version claude_config) "web_search_20250305" in
  do api_key <- environ_get "ANTHROPIC_API_KEY";
  let client :=
    if error_truthy api_key && anthropic_pkg env
    then Some (AnthropicClient api_key)
    else None in
  ret (MkClaudeProvider id cfg provider_config model max_tokens
         web_search_tool_version client).

Definition claude_required_env_vars (self : ClaudeProvider) : list string :=
  ["ANTHROPIC_API_KEY"].

(** [ClaudeProvider.validate_config] *)
Definition claude_validate_config (self : ClaudeProvider) : M bool :=
  if negb (anthropic_pkg env) then ret false
  else
    do api_key <- environ_get "ANTHROPIC_API_KEY";
    if negb (error_truthy api_key) then ret false
    else
      match cl_client self with
      | None => ret false
      | Some _ => ret true
      end.

Definition claude_user_message (query : string) : string :=
  "Search for: " ++ query ++ "

After searching, provide a structured summary of venues found with:
1. Venue name
2. City/Location
3. Venue type (bar, restaurant, theater, etc.)
4. Any booking/contact info found
5. Notable details (capacity, genres, etc.)

Also note any opportunities where venues are actively seeking musicians.".

(** Concatenation of the [text] of the blocks that have one. *)
Fixpoint blocks_text (blocks : list content_block) : string :=
  match blocks with
  | [] => ""
  | b :: rest =>
      match cb_text b with
      | Some t => t ++ blocks_text rest
      | None => blocks_text rest
      end
  end.

Definition none_has_no_attribute (attr : string) : exn :=
  Exn "AttributeError" ("'NoneType' object has no attribute '" ++ attr ++ "'").

(** [ClaudeProvider.search] *)
Definition claude_search (self : ClaudeProvider) (query : string)
    (query_info : query_t) : M search_result :=
  let user_message := claude_user_message query in
  try_except
    (do response <-
       match cl_client self with
       | None => raise (none_has_no_attribute "messages")
       | Some client =>
           external (fun t =>
             anthropic_messages_create env t client
               (AnthropicRequest (cl_model self) (cl_max_tokens self)
                  [(cl_web_search_tool_version self, "web_search")]
                  [ChatMessage "user" user_message]))
       end;
     let result_text := blocks_text response in
     _standardize_result (VStr result_text) query_info true None)
    (fun e =>
       let error_msg := exn_str e in
       _standardize_result (VStr "") query_info false (Some error_msg)).

(** *** [providers/openrouter_provider.py] *)

Record OpenRouterProvider := MkOpenRouterProvider {
  orp_id : nat;
  orp_config : config;
  orp_provider_config : provider_config;
  orp_model : string;
  orp_max_tokens : Z;
  orp_max_search_results : Z;
  orp_client : option openai_client
}.

(** [OpenRouterProvider.__init__] *)
Definition OpenRouterProvider_init (cfg : config) : M OpenRouterProvider :=
  do id <- fresh_id;
  let provider_config := get (cfg_search_provider cfg) empty_provider_config in
  let openrouter_config :=
    get (pc_openrouter provider_config) empty_openrouter_config in
  let model := get (orc_model openrouter_config) "openai/gpt-4o:online" in
  let max_tokens := get (orc_max_tokens openrouter_config) 2000 in
  let max_search_results := get (orc_max_search_results openrouter_config) 5 in
  let model :=
    if negb (str_contains ":online" model) then model ++ ":online" else model in
  do api_key <- environ_get "OPENROUTER_API_KEY";
  let client :=
    if error_truthy api_key && openai_pkg env
    then Some (OpenAIClient (Some "https://openrouter.ai/api/v1") api_key)
    else None in
  ret (MkOpenRouterProvider id cfg provider_config model max_tokens
         max_search_results client).

Definition openrouter_required_env_vars (self : OpenRouterProvider) : list string :=
  ["OPENROUTER_API_KEY"].

(** [OpenRouterProvider.validate_config] *)
Definition openrouter_validate_config (self : OpenRouterProvider) : M bool :=
  if negb (openai_pkg env) then ret false
  else
    do api_key <- environ_get "OPENROUTER_API_KEY";
    if negb (error_truthy api_key) then ret false
    else
      match orp_client self with
      | None => ret false
      | Some _ => ret true
      end.

Definition research_system_prompt : string :=
  "You are a venue research assistant helping a musician find
performance venues. When searching, focus on:
- Live music venues, bars, restaurants with live music
- Capacity and venue type when available
- Booking contact information if found
- Any mentions of venues seeking musicians

Format your findings as structured data.".

(** [choices[0]] *)
Definition first_choice (choices : list string) : M string :=
  match choices with
  | [] => raise (Exn "IndexError" "list index out of range")
  | c :: _ => ret c
  end.

(** [OpenRouterProvider.search] *)
Definition openrouter_search (self : OpenRouterProvider) (query : string)
    (query_info : query_t) : M search_result :=
  let system_prompt := research_system_prompt in
  let user_message := claude_user_message query in
  try_except
    (do response <-
       match orp_client self with
       | None => raise (none_has_no_attribute "chat")
       | Some client =>
           external (fun t =>
             openai_chat_create env t client
               (OpenAIRequest (orp_model self) (orp_max_tokens self)
                  [ChatMessage "system" system_prompt;
                   ChatMessage "user" user_message]))
       end;
     do result_text <- first_choice response;
     _standardize_result (VStr result_text) query_info true None)
    (fun e =>
       let error_msg := exn_str e in
       _standardize_result (VStr "") query_info false (Some error_msg)).

(** *** [providers/ollama_provider.py] *)

Record OllamaProvider := MkOllamaProvider {
  olp_id : nat;
  olp_config : config;
  olp_provider_config : provider_config;
  olp_model : string;
  olp_base_url : string;
  olp_max_tokens : Z;
  olp_enable_web_search : bool;
  olp_client : bool
}.

(** [OllamaProvider.__init__]; [client] is the [ollama] module or [None],
    kept as whether the module is there. *)
Definition OllamaProvider_init (cfg : config) : M OllamaProvider :=
  do id <- fresh_id;
  let provider_config := get (cfg_search_provider cfg) empty_provider_config in
  let ollama_config := get (pc_ollama provider_config) empty_ollama_config in
  let model := get (oc_model ollama_config) "llama3.1:latest" in
  let base_url := get (oc_base_url ollama_config) "http://localhost:11434" in
  let max_tokens := get (oc_max_tokens ollama_config) 2000 in
  let enable_web_search := get (oc_enable_web_search ollama_config) true in
  do _ <- (if str_truthy base_url then environ_set "OLLAMA_HOST" base_url
           else ret tt);
  ret (MkOllamaProvider id cfg provider_config model base_url max_tokens
         enable_web_search (ollama_pkg env)).

Definition ollama_required_env_vars (self : OllamaProvider) : list string := [].

(** [[m["name"] for m in models]] *)
Fixpoint model_names (models : list (option string)) : M (list string) :=
  match models with
  | [] => ret []
  | None :: _ => raise (Exn "KeyError" "'name'")
  | Some n :: rest => do names <- model_names rest; ret (n :: names)
  end.

(** [x in xs] for a list of strings. *)
Definition str_in (x : string) (xs : list string) : bool :=
  existsb (String.eqb x) xs.

(** [OllamaProvider.validate_config] *)
Definition ollama_validate_config (self : OllamaProvider) : M bool :=
  if negb (ollama_pkg env) then ret false
  else
    try_except
      (do models <- external (ollama_list env);
       do available_models <- model_names models;
       if negb (str_in (olp_model self) available_models) then ret false
       else ret true)
      (fun e => ret false).

Definition ollama_system_prompt : string :=
  "You are a venue research assistant helping a musician find
performance venues. When searching, focus on:
- Live music venues, bars, restaurants with live music
- Capacity and venue type when available
- Booking contact information if found
- Any mentions of venues seeking musicians

Format your findings as structured data.

Note: If you need to search the web, indicate what searches would be helpful.
In production, web search would be performed via external tools.".

Definition ollama_user_message (query : string) : string :=
  "Search for: " ++ query ++ "

Provide a structured summary of venues that match this query with:
1. Venue name
2. City/Location
3. Venue type (bar, restaurant, theater, etc.)
4. Any booking/contact info
5. Notable details (capacity, genres, etc.)

Also note any opportunities where venues are actively seeking musicians.

Based on your knowledge, what information can you provide about venues matching this query?".

(** The annotation appended to every Ollama answer. *)
Definition ollama_note : string :=
  "

[Note: Ollama response based on training data. For real-time web search, use MCP provider with Ollama as LLM backend.]".

(** [response.get("message", {}).get("content", "")] *)
Definition ollama_content (response : ollama_response) : string :=
  get (om_content (get (ors_message response) (OllamaMessage None))) "".

(** [OllamaProvider.search] *)
Definition ollama_search (self : OllamaProvider) (query : string)
    (query_info : query_t) : M search_result :=
  let system_prompt := ollama_system_prompt in
  let user_message := ollama_user_message query in
  try_except
    (do response <-
       (if ollama_pkg env
        then external (fun t =>
               ollama_chat env t
                 (OllamaRequest (olp_model self)
                    [ChatMessage "system" system_prompt;
                     ChatMessage "user" user_message]
                    (olp_max_tokens self)))
        else raise (none_has_no_attribute "chat"));
     let result_text := ollama_content response in
     let note := ollama_note in
     let result_text := result_text ++ note in
     _standardize_result (VStr result_text) query_info true None)
    (fun e =>
       let error_msg := exn_str e in
       _standardize_result (VStr "") query_info false (Some error_msg)).

(** *** [providers/mcp_provider.py] *)

Inductive llm_client :=
| LlmAnthropic (c : anthropic_client)
| LlmOpenAI (c : openai_client).

Record MCPProvider := MkMCPProvider {
  mcp_id : nat;
  mcp_cfg : config;
  mcp_provider_config : provider_config;
  mcp_server_type : string;
  mcp_model : string;
  mcp_max_results : Z;
  mcp_max_tokens : Z;
  mcp_server_cfg : mcp_server_config;
  mcp_mcp_client : option mcp_client;
  mcp_llm_client : option llm_client;
  mcp_llm_type : string
}.

(** [MCPProvider._detect_llm_type], on the model name. *)
Definition _detect_llm_type (model : string) : string :=
  if str_contains "claude" (str_lower model) then "claude"
  else if str_contains "gpt" (str_lower model)
          || str_contains "openai" (str_lower model) then "openai"
  else if str_contains "gemini" (str_lower model)
          || str_contains "google" (str_lower model) then "openai"
  else "claude".

(** [MCPProvider.__init__] *)
Definition MCPProvider_init (cfg : config) : M MCPProvider :=
  do id <- fresh_id;
  let provider_config := get (cfg_search_provider cfg) empty_provider_config in
  let mcp_config := get (pc_mcp provider_config) empty_mcp_config in
  let server_type := get (mc_server_type mcp_config) "websearch-mcp" in
  let model := get (mc_model mcp_config) "claude-sonnet-4-20250514" in
  let max_results := get (mc_max_results mcp_config) 10 in
  let max_tokens := get (mc_max_tokens mcp_config) 2000 in
  let server_config := get (mc_server_config mcp_config) empty_mcp_server_config in
  ret (MkMCPProvider id cfg provider_config server_type model max_results
         max_tokens server_config None None (_detect_llm_type model)).

(** [MCPProvider.get_required_env_vars] *)
Definition mcp_required_env_vars (self : MCPProvider) : list string :=
  let env_vars :=
    if String.eqb (mcp_server_type self) "serpapi" then ["SERPAPI_API_KEY"]
    else if String.eqb (mcp_server_type self) "brave" then ["BRAVE_API_KEY"]
    else [] in
  if String.eqb (mcp_llm_type self) "claude" then (env_vars ++ ["ANTHROPIC_API_KEY"])%list
  else if String.eqb (mcp_llm_type self) "openai" then (env_vars ++ ["OPENAI_API_KEY"])%list
  else env_vars.

(** The loop over the required variables in [validate_config]. *)
Fixpoint env_vars_set (env_vars : list string) : M bool :=
  match env_vars with
  | [] => ret true
  | env_var :: rest =>
      do v <- environ_get env_var;
      if negb (error_truthy v) then ret false else env_vars_set rest
  end.

(** [MCPProvider.validate_config] *)
Definition mcp_validate_config (self : MCPProvider) : M bool :=
  if negb (mcp_pkg env) then ret false
  else if String.eqb (mcp_llm_type self) "claude" && negb (anthropic_pkg env)
  then ret false
  else if String.eqb (mcp_llm_type self) "openai" && negb (openai_pkg env)
  then ret false
  else env_vars_set (mcp_required_env_vars self).

(** [MCPProvider._init_mcp_client] *)
Definition _init_mcp_client (self : MCPProvider) : M mcp_client :=
  if negb (mcp_pkg env)
  then raise (Exn "RuntimeError" "MCP package not available")
  else
    do server_params <-
      (if String.eqb (mcp_server_type self) "websearch-mcp"
       then ret (StdioServerParameters "npx" ["web-search-mcp"] None)
       else if String.eqb (mcp_server_type self) "brave"
       then
         do key <- environ_get "BRAVE_API_KEY";
         ret (StdioServerParameters "npx"
                ["@modelcontextprotocol/server-brave-search"]
                (Some [("BRAVE_API_KEY", key)]))
       else if String.eqb (mcp_server_type self) "serpapi"
       then
         do key <- environ_get "SERPAPI_API_KEY";
         ret (StdioServerParameters "mcp-server-serpapi" []
                (Some [("SERPAPI_API_KEY", key)]))
       else
         let command :=
           get (msc_server_executable (mcp_server_cfg self)) "mcp-server" in
         let args := get (msc_server_args (mcp_server_cfg self)) [] in
         ret (StdioServerParameters command args None));
    ret (MCPClient server_params).

Definition none_not_callable : exn :=
  Exn "TypeError" "'NoneType' object is not callable".

(** [MCPProvider._init_llm_client] *)
Definition _init_llm_client (self : MCPProvider) : M llm_client :=
  if String.eqb (mcp_llm_type self) "claude" then
    do api_key <- environ_get "ANTHROPIC_API_KEY";
    if anthropic_pkg env then ret (LlmAnthropic (AnthropicClient api_key))
    else raise none_not_callable
  else if String.eqb (mcp_llm_type self) "openai" then
    do api_key <- environ_get "OPENAI_API_KEY";
    if openai_pkg env then ret (LlmOpenAI (OpenAIClient None api_key))
    else raise none_not_callable
  else raise (Exn "ValueError" ("Unsupported LLM type: " ++ mcp_llm_type self)).

Definition set_mcp_client (self : MCPProvider) (c : option mcp_client) : MCPProvider :=
  MkMCPProvider (mcp_id self) (mcp_cfg self) (mcp_provider_config self)
    (mcp_server_type self) (mcp_model self) (mcp_max_results self)
    (mcp_max_tokens self) (mcp_server_cfg self) c (mcp_llm_client self)
    (mcp_llm_type self).

Definition set_llm_client (self : MCPProvider) (c : option llm_client) : MCPProvider :=
  MkMCPProvider (mcp_id self) (mcp_cfg self) (mcp_provider_config self)
    (mcp_server_type self) (mcp_model self) (mcp_max_results self)
    (mcp_max_tokens self) (mcp_server_cfg self) (mcp_mcp_client self) c
    (mcp_llm_type self).

Definition mcp_system_prompt : string :=
  "You are a venue research assistant helping a musician find
performance venues. Analyze the search results and focus on:
- Live music venues, bars, restaurants with live music
- Capacity and venue type when available
- Booking contact information if found
- Any mentions of venues seeking musicians

Format your findings as structured data.".

Definition mcp_user_message (query search_results : string) : string :=
  "Based on these search results for: " ++ query ++ "

Search Results:
" ++ search_results ++ "

Provide a structured summary of venues found with:
1. Venue name
2. City/Location
3. Venue type (bar, restaurant, theater, etc.)
4. Any booking/contact info found
5. Notable details (capacity, genres, etc.)

Also note any opportunities where venues are actively seeking musicians.".

Definition newline2 : string := "

".

(** The two SDK calls of [_analyze_with_llm]; the method of one SDK does
    not exist on the client of the other. *)
Definition llm_messages_create (c : llm_client) (req : anthropic_request)
    : M (list content_block) :=
  match c with
  | LlmAnthropic a => external (fun t => anthropic_messages_create env t a req)
  | LlmOpenAI _ =>
      raise (Exn "AttributeError" "'OpenAI' object has no attribute 'messages'")
  end.

Definition llm_chat_create (c : llm_client) (req : openai_request)
    : M (list string) :=
  match c with
  | LlmOpenAI o => external (fun t => openai_chat_create env t o req)
  | LlmAnthropic _ =>
      raise (Exn "AttributeError" "'Anthropic' object has no attribute 'chat'")
  end.

(** A method of [MCPProvider] that may assign to [self]. *)
Definition MCPMethod (A : Type) : Type := MS (MCPProvider * world) A.

(** [MCPProvider._perform_web_search] *)
Definition _perform_web_search (query : string) : MCPMethod string :=
  try_except
    (do self <- get_self;
     do _ <-
       match mcp_mcp_client self with
       | None =>
           do c <- in_world (_init_mcp_client self);
           set_self (set_mcp_client self (Some c))
       | Some _ => ret tt
       end;
     let search_results := "[Simulated MCP search results for: " ++ query ++ "]
" in
     let search_results := search_results ++
       "Note: Full MCP integration requires MCP server to be running.
" in
     let search_results := search_results ++
       "For production use, ensure MCP server is properly configured." in
     ret search_results)
    (fun e => ret ("Error performing MCP search: " ++ exn_str e)).

(** [MCPProvider._analyze_with_llm]; the value is a string, or [None] when
    [llm_type] is neither of the two it handles. *)
Definition _analyze_with_llm (query search_results : string) : MCPMethod value :=
  try_except
    (do self <- get_self;
     do _ <-
       match mcp_llm_client self with
       | None =>
           do c <- in_world (_init_llm_client self);
           set_self (set_llm_client self (Some c))
       | Some _ => ret tt
       end;
     do self <- get_self;
     let system_prompt := mcp_system_prompt in
     let user_message := mcp_user_message query search_results in
     match mcp_llm_client self with
     | None => raise (none_has_no_attribute "messages")
     | Some llm =>
         if String.eqb (mcp_llm_type self) "claude" then
           do response <- in_world (llm_messages_create llm
             (AnthropicRequest (mcp_model self) (mcp_max_tokens self) []
                [ChatMessage "user" (system_prompt ++ newline2 ++ user_message)]));
           let result_text := blocks_text response in
           ret (VStr result_text)
         else if String.eqb (mcp_llm_type self) "openai" then
           do response <- in_world (llm_chat_create llm
             (OpenAIRequest (mcp_model self) (mcp_max_tokens self)
                [ChatMessage "system" system_prompt;
                 ChatMessage "user" user_message]));
           do content <- in_world (first_choice response);
           ret (VStr content)
         else ret VNone
     end)
    (fun e => ret (VStr ("Error analyzing with LLM: " ++ exn_str e))).

(** [MCPProvider.search] *)
Definition mcp_search (query : string) (query_info : query_t)
    : MCPMethod search_result :=
  try_except
    (do search_results <- _perform_web_search query;
     do analysis <- _analyze_with_llm query search_results;
     in_world (_standardize_result analysis query_info true None))
    (fun e =>
       let error_msg := exn_str e in
       in_world (_standardize_result (VStr "") query_info false (Some error_msg))).

(** *** The provider interface

    The abstract base class [SearchProvider]: what every provider class
    implements. [search] is a method on the provider object. *)

Class SearchProvider (P : Type) := {
  class_name : string;
  object_id : P -> nat;
  search : string -> query_t -> MS (P * world) search_result;
  validate_config : P -> M bool;
  get_required_env_vars : P -> list string
}.

#[export] Instance ClaudeProvider_impl : SearchProvider ClaudeProvider := {
  class_name := "ClaudeProvider";
  object_id := cl_id;
  search query query_info :=
    do self <- get_self; in_world (claude_search self query query_info);
  validate_config := claude_validate_config;
  get_required_env_vars := claude_required_env_vars
}.

#[export] Instance OpenRouterProvider_impl : SearchProvider OpenRouterProvider := {
  class_name := "OpenRouterProvider";
  object_id := orp_id;
  search query query_info :=
    do self <- get_self; in_world (openrouter_search self query query_info);
  validate_config := openrouter_validate_config;
  get_required_env_vars := openrouter_required_env_vars
}.

#[export] Instance OllamaProvider_impl : SearchProvider OllamaProvider := {
  class_name := "OllamaProvider";
  object_id := olp_id;
  search query query_info :=
    do self <- get_self; in_world (ollama_search self query query_info);
  validate_config := ollama_validate_config;
  get_required_env_vars := ollama_required_env_vars
}.

#[export] Instance MCPProvider_impl : SearchProvider MCPProvider := {
  class_name := "MCPProvider";
  object_id := mcp_id;
  search := mcp_search;
  validate_config := mcp_validate_config;
  get_required_env_vars := mcp_required_env_vars
}.

(** A provider object of one of the four classes. *)
Inductive provider_obj :=
| PClaude (p : ClaudeProvider)
| POpenRouter (p : OpenRouterProvider)
| POllama (p : OllamaProvider)
| PMCP (p : MCPProvider).

Definition provider_id (p : provider_obj) : nat :=
  match p with
  | PClaude c => object_id c
  | POpenRouter c => object_id c
  | POllama c => object_id c
  | PMCP c => object_id c
  end.

Definition provider_class_name (p : provider_obj) : string :=
  match p with
  | PClaude _ => class_name (P := ClaudeProvider)
  | POpenRouter _ => class_name (P := OpenRouterProvider)
  | POllama _ => class_name (P := OllamaProvider)
  | PMCP _ => class_name (P := MCPProvider)
  end.

(** [provider.get_provider_name()] *)
Definition get_provider_name (p : provider_obj) : string :=
  get_provider_name_of (provider_class_name p).

(** [provider.get_required_env_vars()] *)
Definition provider_required_env_vars (p : provider_obj) : list string :=
  match p with
  | PClaude c => get_required_env_vars c
  | POpenRouter c => get_required_env_vars c
  | POllama c => get_required_env_vars c
  | PMCP c => get_required_env_vars c
  end.

(** [provider.validate_config()]; the call and its answer are recorded. *)
Definition provider_validate_config (p : provider_obj) : M bool :=
  do ok <-
    match p with
    | PClaude c => validate_config c
    | POpenRouter c => validate_config c
    | POllama c => validate_config c
    | PMCP c => validate_config c
    end;
  do _ <- log (EvValidate (provider_id p) ok);
  ret ok.

(** [provider.search(query, query_info)]; the call is recorded, and the
    provider object comes back as the call leaves it. *)
Definition provider_search (p : provider_obj) (query : string) (query_info : query_t)
    : M (search_result * provider_obj) :=
  do _ <- log (EvSearch (provider_id p) query);
  match p with
  | PClaude c =>
      do r <- call_method (search query query_info) c;
      ret (fst r, PClaude (snd r))
  | POpenRouter c =>
      do r <- call_method (search query query_info) c;
      ret (fst r, POpenRouter (snd r))
  | POllama c =>
      do r <- call_method (search query query_info) c;
      ret (fst r, POllama (snd r))
  | PMCP c =>
      do r <- call_method (search query query_info) c;
      ret (fst r, PMCP (snd r))
  end.

(** ** [providers/factory.py] *)

Inductive provider_class :=
| ClaudeProviderClass
| OpenRouterProviderClass
| OllamaProviderClass
| MCPProviderClass.

(** The provider registry, in the order the dict is written. *)
Definition PROVIDERS : list (string * provider_class) :=
  [("claude", ClaudeProviderClass);
   ("openrouter", OpenRouterProviderClass);
   ("ollama", OllamaProviderClass);
   ("mcp", MCPProviderClass)].

(** [PROVIDERS.keys()] *)
Definition PROVIDERS_keys : list string := map fst PROVIDERS.

(** [PROVIDERS[name]], [None] when [name not in PROVIDERS]. *)
Fixpoint registry_lookup (reg : list (string * provider_class)) (name : string)
    : option provider_class :=
  match reg with
  | [] => None
  | (k, c) :: rest => if String.eqb name k then Some c else registry_lookup rest name
  end.

(** [provider_class(config)] *)
Definition construct (c : provider_class) (cfg : config) : M provider_obj :=
  match c with
  | ClaudeProviderClass => do p <- ClaudeProvider_init cfg; ret (PClaude p)
  | OpenRouterProviderClass => do p <- OpenRouterProvider_init cfg; ret (POpenRouter p)
  | OllamaProviderClass => do p <- OllamaProvider_init cfg; ret (POllama p)
  | MCPProviderClass => do p <- MCPProvider_init cfg; ret (PMCP p)
  end.

(** The message of the [ValueError] for an unregistered name. *)
Definition unknown_provider_message (provider_name : string) : string :=
  let available := str_join ", " PROVIDERS_keys in
  "Unknown provider: '" ++ provider_name ++ "'. Available providers: " ++ available.

(** [create_provider] *)
Definition create_provider (provider_name : string) (cfg : config) : M provider_obj :=
  let provider_name := str_strip (str_lower provider_name) in
  match registry_lookup PROVIDERS provider_name with
  | None => raise (Exn "ValueError" (unknown_provider_message provider_name))
  | Some provider_class => construct provider_class cfg
  end.

(** [list_providers] *)
Definition list_providers : list string := PROVIDERS_keys.

(** ** [unified_search.py] *)

Definition RESULTS_DIR : string := "data/search_results".

(** *** [str.format(city=..., region=...)]

    Literal text, the escapes [{{] and [}}] and replacement fields that
    are a bare name are written out; a field with more syntax is left to
    [str_format_rest]. There are no positional arguments, so a field with
    an empty or a numeric name raises. *)

Definition is_digit (c : ascii) : bool :=
  let n := nat_of_ascii c in (48 <=? n)%nat && (n <=? 57)%nat.

Fixpoint all_digits (s : string) : bool :=
  match s with
  | EmptyString => true
  | String c s' => is_digit c && all_digits s'
  end.

Definition PY_SSIZE_T_MAX : Z := 9223372036854775807.

(** The integer a numeric field name denotes; [None] when it has too many
    digits. *)
Fixpoint get_integer (acc : Z) (s : string) : option Z :=
  match s with
  | EmptyString => Some acc
  | String c s' =>
      if PY_SSIZE_T_MAX / 10 <? acc then None
      else get_integer (acc * 10 + (Z.of_nat (nat_of_ascii c) - 48)) s'
  end.

Definition Z_to_string (z : Z) : string :=
  NilZero.string_of_uint (N.to_uint (Z.to_N z)).

Definition index_out_of_range (i : Z) : exn :=
  Exn "IndexError"
    ("Replacement index " ++ Z_to_string i
       ++ " out of range for positional args tuple").

(** The value of the field called [name]. *)
Definition format_field (name city region : string) : outcome string :=
  match name with
  | EmptyString => Raise (index_out_of_range 0)
  | _ =>
      if all_digits name then
        match get_integer 0 name with
        | Some i => Raise (index_out_of_range i)
        | None => Raise (Exn "ValueError" "Too many decimal digits in format string")
        end
      else if String.eqb name "city" then Ok city
      else if String.eqb name "region" then Ok region
      else Raise (Exn "KeyError" ("'" ++ name ++ "'"))
  end.

Definition is_field_syntax (c : ascii) : bool :=
  match c with
  | "!"%char | ":"%char | "."%char | "["%char => true
  | _ => false
  end.

Definition of_sum {A} (r : exn + A) : outcome A :=
  match r with
  | inl e => Raise e
  | inr a => Ok a
  end.

(** [field] is [None] in literal text and [Some name] inside a field whose
    name read so far is [name]. *)
Fixpoint format_go (city region : string) (field : option string) (s : string)
    : outcome string :=
  match field, s with
  | None, EmptyString => Ok EmptyString
  | None, String "{"%char EmptyString =>
      Raise (Exn "ValueError" "Single '{' encountered in format string")
  | None, String "{"%char (String "{"%char s'') =>
      obind (format_go city region None s'') (fun r => Ok (String "{"%char r))
  | None, String "{"%char s' => format_go city region (Some EmptyString) s'
  | None, String "}"%char (String "}"%char s'') =>
      obind (format_go city region None s'') (fun r => Ok (String "}"%char r))
  | None, String "}"%char _ =>
      Raise (Exn "ValueError" "Single '}' encountered in format string")
  | None, String c s' =>
      obind (format_go city region None s') (fun r => Ok (String c r))
  | Some name, EmptyString =>
      Raise (Exn "ValueError" "expected '}' before end of string")
  | Some name, String "}"%char s' =>
      obind (format_field name city region) (fun v =>
      obind (format_go city region None s') (fun r => Ok (v ++ r)))
  | Some name, String "{"%char _ =>
      Raise (Exn "ValueError" "unexpected '{' in field name")
  | Some name, String c s' =>
      if is_field_syntax c
      then of_sum (str_format_rest env (name ++ s) city region)
      else format_go city region (Some (name ++ String c EmptyString)) s'
  end.

(** [template.format(city=city, region=region)] *)
Definition str_format (template city region : string) : outcome string :=
  format_go city region None template.

(** *** [build_search_queries] *)

(** A loop that appends to one list: the items of every round, in order;
    the first exception ends it. *)
Fixpoint for_each {A B} (body : A -> outcome (list B)) (l : list A)
    : outcome (list B) :=
  match l with
  | [] => Ok []
  | x :: rest =>
      obind (body x) (fun ys =>
      obind (for_each body rest) (fun zs => Ok (ys ++ zs)%list))
  end.

(** The body of the innermost loop, for one template type. *)
Definition template_queries (templates : gmap string (list string))
    (region_name : string) (priority : Z) (city template_type : string)
    : outcome (list query_t) :=
  let template_list := default [] (templates !! template_type) in
  match template_list with
  | [] => Ok []
  | template :: _ =>
      obind (str_format template city region_name) (fun query =>
      Ok [Query query template_type region_name city priority])
  end.

(** The body of the loop over [regions.items()]. *)
Definition region_queries (templates : gmap string (list string))
    (region : string * region_data) : outcome (list query_t) :=
  let region_key := fst region in
  let region_data := snd region in
  let region_name := get (rd_name region_data) region_key in
  let priority := get (rd_priority region_data) 5 in
  let cities := firstn 3 (get (rd_cities region_data) []) in
  for_each (fun city =>
    for_each (template_queries templates region_name priority city)
      ["new_venues"; "booking_opportunities"])
    cities.

(** The list [queries] when the loops are over, before it is sorted. *)
Definition generated_queries (cfg : config) : outcome (list query_t) :=
  let templates := get (cfg_search_templates cfg) ∅ in
  let regions := get (cfg_regions cfg) [] in
  for_each (region_queries templates) regions.

(** [list.sort(key=lambda x: x["priority"])]: a stable sort, written as
    insertion from the right. *)
Fixpoint insert_by_priority (q : query_t) (l : list query_t) : list query_t :=
  match l with
  | [] => [q]
  | x :: rest =>
      if q_priority q <=? q_priority x then q :: l
      else x :: insert_by_priority q rest
  end.

Fixpoint sort_by_priority (l : list query_t) : list query_t :=
  match l with
  | [] => []
  | q :: rest => insert_by_priority q (sort_by_priority rest)
  end.

(** [l[:limit]], for any integer [limit]. *)
Definition slice_to {A} (limit : Z) (l : list A) : list A :=
  if 0 <=? limit then firstn (Z.to_nat limit) l
  else firstn (Z.to_nat (Z.of_nat (length l) + limit)) l.

Definition build_search_queries (cfg : config) (limit : Z) : outcome (list query_t) :=
  obind (generated_queries cfg) (fun queries =>
  let queries := sort_by_priority queries in
  Ok (slice_to limit queries)).

(** *** [execute_searches] *)

(** The loop over the queries; [results] is the list built so far. *)
Fixpoint search_loop (provider : provider_obj) (queries : list query_t)
    (results : list search_result) : M (list search_result * provider_obj) :=
  match queries with
  | [] => ret (results, provider)
  | q :: rest =>
      do r <- provider_search provider (q_query q) q;
      let result := fst r in
      let provider := snd r in
      let results := (results ++ [result])%list in
      do success <- lift (getitem result "success");
      do _ <-
        (if truthy success
         then do text <- lift (getitem result "text");
              do _ <- lift (py_len text);
              ret tt
         else ret tt);
      search_loop provider rest results
  end.

(** [sum(1 for r in results if r["success"])] *)
Fixpoint count_successful (results : list search_result) : outcome nat :=
  match results with
  | [] => Ok O
  | r :: rest =>
      obind (getitem r "success") (fun success =>
      obind (count_successful rest) (fun n =>
      Ok (if truthy success then S n else n)))
  end.

(** [execute_searches]; creating the results directory and opening the
    file are taken to succeed. *)
Definition execute_searches (provider : provider_obj) (cfg : config) (max_queries : Z)
    : M string :=
  do queries <- lift (build_search_queries cfg max_queries);
  do lr <- search_loop provider queries [];
  let results := fst lr in
  let provider := snd lr in
  do stamp <- now (now_strftime env);
  let results_file := RESULTS_DIR ++ "/daily_" ++ stamp ++ ".json" in
  do date <- now (now_isoformat env);
  do successful <- lift (count_successful results);
  let output_data :=
    OutputData date (get_provider_name provider) (length queries) successful
      results in
  do _ <- write_file results_file output_data;
  ret results_file.

(** *** [run_daily_searches] *)

(** The loop over the fallback providers; [Some path] when an iteration
    returned, [None] when the loop ran to its end. *)
Fixpoint try_fallbacks (cfg : config) (max_queries : Z)
    (fallback_providers : list string) : M (option string) :=
  match fallback_providers with
  | [] => ret None
  | fallback_name :: rest =>
      do returned <-
        try_except
          (do provider <- create_provider fallback_name cfg;
           do ok <- provider_validate_config provider;
           if ok
           then do path <- execute_searches provider cfg max_queries;
                ret (Some path)
           else ret None)
          (fun fallback_error => ret None);
      match returned with
      | Some path => ret (Some path)
      | None => try_fallbacks cfg max_queries rest
      end
  end.

(** [provider_name or default]: [None] and the empty string are falsy. *)
Definition or_default (provider_name : option string) (dflt : string) : string :=
  match provider_name with
  | Some n => if str_truthy n then n else dflt
  | None => dflt
  end.

Definition run_daily_searches (cfg : config) (max_queries : Z)
    (provider_name : option string) : M string :=
  let provider_config := get (cfg_search_provider cfg) empty_provider_config in
  let provider_name :=
    or_default provider_name (get (pc_default_provider provider_config) "claude") in
  let fallback_providers := get (pc_fallback_providers provider_config) [] in
  try_except
    (do provider <- create_provider provider_name cfg;
     do ok <- provider_validate_config provider;
     do _ <-
       (if negb ok
        then raise (Exn "RuntimeError"
                      (provider_name ++ " configuration validation failed"))
        else ret tt);
     execute_searches provider cfg max_queries)
    (fun e =>
       do returned <- try_fallbacks cfg max_queries fallback_providers;
       match returned with
       | Some path => ret path
       | None => sys_exit 1
       end).

End Providers.

(** * Statements

    Definitions used to state the properties: notions the specification
    names, and concrete configurations and worlds on which the statements
    are tried. *)

(** The name under which [create_provider] looks a provider up. *)
Definition normalize_name (name : string) : string := str_strip (str_lower name).


(** An exception whose message is [msg], as a backend may raise it. *)
Definition backend_error (msg : string) : exn := Exn "ConnectionError" msg.

(** A machine with no SDK installed and no service reachable. *)
Definition offline_backend : backend :=
  Backend false false false false
    (fun t => "2025-01-01T00:00:00") (fun t => "20250101_0000")
    (fun _ _ _ => inl (backend_error "connection refused"))
    (fun _ _ _ => inl (backend_error "connection refused"))
    (fun _ => inl (backend_error "connection refused"))
    (fun _ _ => inl (backend_error "connection refused"))
    (fun _ _ _ => inl (Exn "ValueError" "Invalid format specifier")).

Definition empty_config : config := Config None None None.

Definition empty_world : world := World 0 ∅ 0 ∅.

(** The configuration of the example scenario: one region with four
    cities and one template for each of the two categories. *)
Definition hudson_valley_config : config :=
  Config
    (Some (<["new_venues" := ["{city} new venue"]]>
             (<["booking_opportunities" := ["{city} booking"]]> ∅)))
    (Some [("hudson_valley",
            RegionData (Some "Hudson Valley") (Some 1)
              (Some ["Kingston"; "Woodstock"; "Albany"; "Troy"]))])
    None.

(** The dict [_standardize_result] builds at time [timestamp] before it
    looks at [error]. *)
Definition result_dict (timestamp : string) (raw : value) (qi : query_t)
    (success : bool) : search_result :=
  <["timestamp" := VStr timestamp]>
    (<["success" := VBool success]>
       (<["text" := raw]> (<["query_info" := VQuery qi]> ∅))).

(** The dict of a failed search whose exception reads [msg]. *)
Definition failed_result (timestamp : string) (qi : query_t) (msg : string)
    : search_result :=
  if str_truthy msg
  then <["error" := VStr msg]> (result_dict timestamp (VStr "") qi false)
  else result_dict timestamp (VStr "") qi false.

(** A result in the standard shape: the query it answers, a text, a
    success flag and a timestamp. *)
Definition well_formed_result (qi : query_t) (r : search_result) : Prop :=
  r !! "query_info" = Some (VQuery qi) /\
  (exists text, r !! "text" = Some (VStr text)) /\
  (exists b, r !! "success" = Some (VBool b)) /\
  is_Some (r !! "timestamp").

(** The six queries of the example scenario. *)
Definition hudson_valley_queries : list query_t :=
  [Query "Kingston new venue" "new_venues" "Hudson Valley" "Kingston" 1;
   Query "Kingston booking" "booking_opportunities" "Hudson Valley" "Kingston" 1;
   Query "Woodstock new venue" "new_venues" "Hudson Valley" "Woodstock" 1;
   Query "Woodstock booking" "booking_opportunities" "Hudson Valley" "Woodstock" 1;
   Query "Albany new venue" "new_venues" "Hudson Valley" "Albany" 1;
   Query "Albany booking" "booking_opportunities" "Hudson Valley" "Albany" 1].

(** A machine on which Ollama runs and answers every chat with [answer]. *)
Definition ollama_backend (answer : string) : backend :=
  Backend false false true false
    (fun t => "2025-01-01T00:00:00") (fun t => "20250101_0000")
    (fun _ _ _ => inl (backend_error "connection refused"))
    (fun _ _ _ => inl (backend_error "connection refused"))
    (fun _ => inr [Some "llama3.1:latest"])
    (fun _ _ => inr (OllamaResponse (Some (OllamaMessage (Some answer)))))
    (fun _ _ _ => inl (Exn "ValueError" "Invalid format specifier")).

Definition example_query : query_t :=
  Query "Kingston new venue" "new_venues" "Hudson Valley" "Kingston" 1.

Definition example_ollama : OllamaProvider :=
  MkOllamaProvider 0 empty_config empty_provider_config "llama3.1:latest"
    "http://localhost:11434" 2000 true true.

(** What a search of the MCP provider may change in the provider object:
    nothing but the two client handles ... *)
Definition same_settings (before after : MCPProvider) : Prop :=
  after =
    set_llm_client (set_mcp_client before (mcp_mcp_client after))
      (mcp_llm_client after).

(** ... and a handle that is set stays as it is. *)
Definition handles_kept (before after : MCPProvider) : Prop :=
  (forall c, mcp_mcp_client before = Some c -> mcp_mcp_client after = Some c) /\
  (forall c, mcp_llm_client before = Some c -> mcp_llm_client after = Some c).

Definition mcp_frame (before after : MCPProvider) : Prop :=
  same_settings before after /\ handles_kept before after.

(** The two values [_detect_llm_type] can give. *)
Definition known_llm_type (self : MCPProvider) : Prop :=
  mcp_llm_type self = "claude" \/ mcp_llm_type self = "openai".

(** A provider object as the constructors leave it, as far as the searches
    depend on it. *)
Definition provider_wf (p : provider_obj) : Prop :=
  match p with
  | PMCP m => known_llm_type m
  | _ => True
  end.

(** What a search may change in a provider object: nothing for the Claude,
    OpenRouter and Ollama providers, the client handles for the MCP
    provider. *)
Definition provider_frame (before after : provider_obj) : Prop :=
  match before, after with
  | PClaude a, PClaude b => a = b
  | POpenRouter a, POpenRouter b => a = b
  | POllama a, POllama b => a = b
  | PMCP a, PMCP b => mcp_frame a b
  | _, _ => False
  end.



(** The class a provider object belongs to, and the name under which the
    registry holds a class. *)
Definition class_of (p : provider_obj) : provider_class :=
  match p with
  | PClaude _ => ClaudeProviderClass
  | POpenRouter _ => OpenRouterProviderClass
  | POllama _ => OllamaProviderClass
  | PMCP _ => MCPProviderClass
  end.

Definition class_key (c : provider_class) : string :=
  match c with
  | ClaudeProviderClass => "claude"
  | OpenRouterProviderClass => "openrouter"
  | OllamaProviderClass => "ollama"
  | MCPProviderClass => "mcp"
  end.



(** Worlds that differ only in the clock. *)
Definition same_but_clock (w w' : world) : Prop :=
  w_environ w' = w_environ w /\
  w_next_id w' = w_next_id w /\
  w_files w' = w_files w.

(** Trying the candidate [name] in the world [w] fails: it cannot be
    constructed, or it is constructed and does not validate. The attempt
    leaves the world [w']. *)
Definition candidate_fails (env : backend) (cfg : config) (name : string)
    (w w' : world) : Prop :=
  (exists e t, create_provider env name cfg w = (Raise e, w', t)) \/
  (exists p w1 t1 t2,
     create_provider env name cfg w = (Ok p, w1, t1) /\
     provider_validate_config env p w1 = (Ok false, w', t2)).

(** Every candidate of [names], tried in turn from the world [w], fails;
    the last attempt leaves the world [w_end]. *)
Fixpoint all_candidates_fail (env : backend) (cfg : config) (names : list string)
    (w w_end : world) : Prop :=
  match names with
  | [] => w_end = w
  | name :: rest =>
      exists w', candidate_fails env cfg name w w' /\
                 all_candidates_fail env cfg rest w' w_end
  end.

(** The primary provider name and the fallback list [run_daily_searches]
    works with. *)
Definition primary_name (cfg : config) (provider_name : option string) : string :=
  or_default provider_name
    (get (pc_default_provider (get (cfg_search_provider cfg) empty_provider_config))
       "claude").

Definition fallback_names (cfg : config) : list string :=
  get (pc_fallback_providers (get (cfg_search_provider cfg) empty_provider_config)) [].

(** An event that is neither a search nor a write. *)
Definition is_failed_validation (ev : event) : Prop :=
  match ev with
  | EvValidate _ false => True
  | _ => False
  end.

(** One round of the loop over the fallback providers. *)
Definition fallback_attempt (env : backend) (cfg : config) (max_queries : Z)
    (fallback_name : string) : M (option string) :=
  try_except
    (do provider <- create_provider env fallback_name cfg;
     do ok <- provider_validate_config env provider;
     if ok
     then do path <- execute_searches env provider cfg max_queries;
          ret (Some path)
     else ret None)
    (fun fallback_error => ret None).

(** What [run_daily_searches] does once the primary provider has failed. *)
Definition after_primary_failure (env : backend) (cfg : config) (max_queries : Z)
    : M string :=
  do returned <- try_fallbacks env cfg max_queries (fallback_names cfg);
  match returned with
  | Some path => ret path
  | None => sys_exit 1
  end.

(** How a run that reached the provider [provider] ends, given how its
    [execute_searches] ended: a failure there counts against the provider. *)
Definition prepend {A} (t : list event) (r : outcome A * world * list event)
    : outcome A * world * list event :=
  match r with
  | (o, w, t') => (o, w, (t ++ t')%list)
  end.


(** A configuration whose fallbacks are the other three providers. *)
Definition all_providers_config : config :=
  Config (cfg_search_templates hudson_valley_config)
    (cfg_regions hudson_valley_config)
    (Some (ProviderConfig (Some "claude") (Some ["openrouter"; "ollama"; "mcp"])
             None None None None)).

(** The claim that a search changes nothing in the provider object, for
    the provider [p]. *)
Definition search_keeps_provider (env : backend) (p : provider_obj) : Prop :=
  forall query qi w r p' w' t,
    provider_search env p query qi w = (Ok (r, p'), w', t) -> p' = p.

(** A machine on which the Anthropic SDK is installed and every call to
    the service fails; the MCP package is not installed. *)
Definition anthropic_down_backend : backend :=
  Backend true false false false
    (fun t => "2025-01-01T00:00:00") (fun t => "20250101_0000")
    (fun _ _ _ => inl (backend_error "connection refused"))
    (fun _ _ _ => inl (backend_error "connection refused"))
    (fun _ => inl (backend_error "connection refused"))
    (fun _ _ => inl (backend_error "connection refused"))
    (fun _ _ _ => inl (Exn "ValueError" "Invalid format specifier")).

(** A world in which the key of the Anthropic service is set. *)
Definition keyed_world : world :=
  World 0 (<["ANTHROPIC_API_KEY" := "sk-ant-test"]> ∅) 0 ∅.

(** The MCP provider as [MCPProvider(config)] builds it from an empty
    configuration. *)
Definition example_mcp : MCPProvider :=
  MkMCPProvider 0 empty_config empty_provider_config "websearch-mcp"
    "claude-sonnet-4-20250514" 10 2000 empty_mcp_server_config None None "claude".

(** Non-decreasing priority. *)
Definition priority_le (a b : query_t) : Prop := q_priority a <= q_priority b.

(** The queries of priority [p] in a list, in the order of the list. *)
Definition with_priority (p : Z) (l : list query_t) : list query_t :=
  List.filter (fun q => q_priority q =? p) l.

(** The key a Claude provider needs in the environment. *)
Definition ANTHROPIC_API_KEY : string := "ANTHROPIC_API_KEY".

(** A machine with the Anthropic SDK installed whose service answers every
    request with one text block. *)
Definition anthropic_backend (answer : string) : backend :=
  Backend true false false false
    (fun t => "2025-01-01T00:00:00") (fun t => "20250101_0000")
    (fun _ _ _ => inr [ContentBlock (Some answer)])
    (fun _ _ _ => inl (backend_error "connection refused"))
    (fun _ => inl (backend_error "connection refused"))
    (fun _ _ => inl (backend_error "connection refused"))
    (fun _ _ _ => inl (Exn "ValueError" "Invalid format specifier")).

(** The Claude provider as [ClaudeProvider(config)] builds it from an empty
    configuration when the key is set. *)
Definition example_claude : ClaudeProvider :=
  MkClaudeProvider 0 empty_config empty_provider_config
    "claude-sonnet-4-20250514" 2000 "web_search_20250305"
    (Some (AnthropicClient (Some "sk-ant-test"))).

(** The model an OpenRouter provider is configured with. *)
Definition configured_openrouter_model (cfg : config) : string :=
  get (orc_model (get (pc_openrouter
                         (get (cfg_search_provider cfg) empty_provider_config))
                    empty_openrouter_config))
    "openai/gpt-4o:online".

(** The settings an Ollama provider is configured with. *)
Definition configured_ollama_base_url (cfg : config) : string :=
  get (oc_base_url (get (pc_ollama
                           (get (cfg_search_provider cfg) empty_provider_config))
                      empty_ollama_config))
    "http://localhost:11434".

(** A variable that is set to a non-empty value in the environment [w]. *)
Definition env_var_set (w : world) (name : string) : Prop :=
  error_truthy (w_environ w !! name) = true.

(** A world in which [OLLAMA_HOST] points to another machine. *)
Definition remote_ollama_world : world :=
  World 0 (<["OLLAMA_HOST" := "http://gpu-box:11434"]> ∅) 0 ∅.

(** A machine with the MCP package and the Anthropic SDK installed. *)
Definition mcp_backend : backend :=
  Backend true false false true
    (fun t => "2025-01-01T00:00:00") (fun t => "20250101_0000")
    (fun _ _ _ => inr [ContentBlock (Some "The Colony, Woodstock")])
    (fun _ _ _ => inl (backend_error "connection refused"))
    (fun _ => inl (backend_error "connection refused"))
    (fun _ _ => inl (backend_error "connection refused"))
    (fun _ _ _ => inl (Exn "ValueError" "Invalid format specifier")).

(** The names in the answer of [ollama.list()], when every entry has one. *)
Fixpoint entry_names (models : list (option string)) : option (list string) :=
  match models with
  | [] => Some []
  | None :: _ => None
  | Some n :: rest =>
      match entry_names rest with
      | Some names => Some (n :: names)
      | None => None
      end
  end.

(** A machine on which Ollama runs and lists one entry without a name
    beside the model. *)
Definition ollama_odd_list_backend : backend :=
  Backend false false true false
    (fun t => "2025-01-01T00:00:00") (fun t => "20250101_0000")
    (fun _ _ _ => inl (backend_error "connection refused"))
    (fun _ _ _ => inl (backend_error "connection refused"))
    (fun _ => inr [Some "llama3.1:latest"; None])
    (fun _ _ => inr (OllamaResponse (Some (OllamaMessage (Some "The Colony")))))
    (fun _ _ _ => inl (Exn "ValueError" "Invalid format specifier")).

(** The regions and templates [build_search_queries] reads. *)
Definition config_regions (cfg : config) : list (string * region_data) :=
  get (cfg_regions cfg) [].

Definition config_templates (cfg : config) (template_type : string) : list string :=
  default [] (get (cfg_search_templates cfg) ∅ !! template_type).

(** The cities of a region that are used: the first three. *)
Definition used_cities (rd : region_data) : list string :=
  firstn 3 (get (rd_cities rd) []).

(** The number of cities used, over all regions. *)
Definition city_budget (cfg : config) : nat :=
  list_sum (map (fun region => length (used_cities (snd region))) (config_regions cfg)).

(** The query [q] comes from the region [region] of the configuration. *)
Definition query_of_region (region : string * region_data) (q : query_t) : Prop :=
  q_region q = get (rd_name (snd region)) (fst region) /\
  q_priority q = get (rd_priority (snd region)) 5 /\
  In (q_city q) (used_cities (snd region)) /\
  (q_type q = "new_venues" \/ q_type q = "booking_opportunities").

(** A configuration with two regions of different priority, listed with
    the less urgent one first. *)
Definition two_region_config : config :=
  Config (cfg_search_templates hudson_valley_config)
    (Some [("catskills", RegionData None None (Some ["Hunter"]));
           ("hudson_valley",
            RegionData (Some "Hudson Valley") (Some 1) (Some ["Kingston"]))])
    None.

(** A configuration whose template names a placeholder that is not
    passed to [format]; Ollama is the provider. *)
Definition bad_template_config : config :=
  Config (Some (<["new_venues" := ["{town} new venue"]]> ∅))
    (cfg_regions hudson_valley_config)
    (Some (ProviderConfig (Some "ollama") (Some ["ollama"]) None None None None)).

(** A validation, whatever its answer. *)
Definition is_validation (ev : event) : Prop :=
  match ev with
  | EvValidate _ _ => True
  | _ => False
  end.




(** An MCP provider both of whose client handles are set. *)
Definition warm_mcp : MCPProvider :=
  set_llm_client
    (set_mcp_client example_mcp
       (Some (MCPClient (StdioServerParameters "npx" ["web-search-mcp"] None))))
    (Some (LlmAnthropic (AnthropicClient (Some "sk-ant-test")))).

(** The first template of a type, if there is one. *)
Definition first_template (cfg : config) (template_type : string) : option string :=
  hd_error (config_templates cfg template_type).

(** Two regions that [build_search_queries] cannot tell apart: same key,
    name and priority, and the same first three cities. *)
Definition same_used_region (r r' : string * region_data) : Prop :=
  fst r = fst r' /\
  rd_name (snd r) = rd_name (snd r') /\
  rd_priority (snd r) = rd_priority (snd r') /\
  used_cities (snd r) = used_cities (snd r').

(** The example configuration with Troy left out, a second template for
    each type and a third type of templates. *)
Definition trimmed_config : config :=
  Config
    (Some (<["new_venues" := ["{city} new venue"; "{city} opening soon"]]>
             (<["booking_opportunities" := ["{city} booking"; "{city} open mic"]]>
                (<["events" := ["{city} concerts this week"]]> ∅))))
    (Some [("hudson_valley",
            RegionData (Some "Hudson Valley") (Some 1)
              (Some ["Kingston"; "Woodstock"; "Albany"]))])
    None.



(** * Properties *)

(** ** Running a computation *)

Lemma bind_ok {St A B} (m : MS St A) (k : A -> MS St B) s a s1 t1 :
  m s = (Ok a, s1, t1) ->
  bind m k s = (let '(r, s2, t2) := k a s1 in (r, s2, (t1 ++ t2)%list)).
Proof. intros H. unfold bind. rewrite H. reflexivity. Qed.

Lemma now_run render w :
  now render w = (Ok (render (w_tick w)), advance w, []).
Proof. reflexivity. Qed.

(** ** [_standardize_result] *)

Lemma standardize_result_run env raw qi success error w :
  _standardize_result env raw qi success error w =
    (Ok (if negb success && error_truthy error
         then <["error" := VStr (default "" error)]>
                (result_dict (now_isoformat env (w_tick w)) raw qi success)
         else result_dict (now_isoformat env (w_tick w)) raw qi success),
     advance w, []).
Proof.
  unfold _standardize_result, bind. rewrite now_run.
  destruct (negb success && error_truthy error); reflexivity.
Qed.

Lemma standardize_success_run env raw qi w :
  _standardize_result env raw qi true None w =
    (Ok (result_dict (now_isoformat env (w_tick w)) raw qi true), advance w, []).
Proof. apply standardize_result_run. Qed.

Lemma standardize_failure_run env qi msg w :
  _standardize_result env (VStr "") qi false (Some msg) w =
    (Ok (failed_result (now_isoformat env (w_tick w)) qi msg), advance w, []).
Proof.
  rewrite standardize_result_run. unfold failed_result. simpl.
  destruct (str_truthy msg); reflexivity.
Qed.

Lemma result_dict_well_formed ts text qi success :
  well_formed_result qi (result_dict ts (VStr text) qi success).
Proof. repeat split; try reflexivity; eexists; reflexivity. Qed.

Lemma failed_result_well_formed ts qi msg :
  well_formed_result qi (failed_result ts qi msg).
Proof.
  unfold failed_result. destruct (str_truthy msg);
    repeat split; try reflexivity; eexists; reflexivity.
Qed.

Lemma failed_result_success ts qi msg :
  failed_result ts qi msg !! "success" = Some (VBool false).
Proof. unfold failed_result. destruct (str_truthy msg); reflexivity. Qed.

Lemma failed_result_error ts qi msg :
  failed_result ts qi msg !! "error" = if str_truthy msg then Some (VStr msg) else None.
Proof. unfold failed_result. destruct (str_truthy msg); reflexivity. Qed.

(** C10. The result of [_standardize_result] has the key [error] exactly
    when it is built with [success = False] and a non-empty error message;
    a failed result built with an empty message or with none has no [error]
    key. Every result has the keys [query_info], [text], [success] and
    [timestamp], holding the values passed in. *)
Theorem standardize_result_error_field env raw qi success error w :
  exists r,
    _standardize_result env raw qi success error w = (Ok r, advance w, []) /\
    (is_Some (r !! "error") <->
       success = false /\ exists msg, error = Some msg /\ msg <> "") /\
    (success = false -> error = None \/ error = Some "" -> r !! "error" = None) /\
    r !! "query_info" = Some (VQuery qi) /\
    r !! "text" = Some raw /\
    r !! "success" = Some (VBool success) /\
    is_Some (r !! "timestamp").
Proof.
  rewrite standardize_result_run. eexists. split; [reflexivity|].
  destruct success, error as [[|c msg]|];
    cbn [negb andb error_truthy str_truthy];
    (split; [split; [intros [v Hv]; try discriminate Hv | intros [Hs [m [Hm Hne]]]] |]).
  all: try discriminate.
  all: try (injection Hm as <-; congruence).
  all: try (split; [reflexivity | eexists; split; [reflexivity | discriminate]]).
  all: try (eexists; reflexivity).
  all: (split; [intros Hs Herr |]).
  all: try discriminate.
  all: try reflexivity.
  all: try (destruct Herr as [Herr | Herr]; discriminate Herr).
  all: repeat split; try reflexivity; eexists; reflexivity.
Qed.

(** ** The example scenario of the query builder *)

(** C5. On the configuration with the single region Hudson Valley
    (priority 1, cities Kingston, Woodstock, Albany, Troy) and the templates
    [{city} new venue] and [{city} booking], [build_search_queries] with
    limit 10 returns exactly six queries, all of priority 1, two for each of
    Kingston, Woodstock and Albany and none for Troy. *)
Theorem build_search_queries_hudson_valley env :
  build_search_queries env hudson_valley_config 10 = Ok hudson_valley_queries /\
  length hudson_valley_queries = 6%nat /\
  Forall (fun q => q_priority q = 1) hudson_valley_queries /\
  (forall city, In city (map q_city hudson_valley_queries) <->
                city = "Kingston" \/ city = "Woodstock" \/ city = "Albany") /\
  ~ In "Troy" (map q_city hudson_valley_queries).
Proof.
  split; [reflexivity|]. split; [reflexivity|].
  split; [repeat constructor|].
  split.
  - intros city. simpl. split.
    + intros H. repeat (destruct H as [H|H]; [subst; tauto|]). destruct H.
    + intros [H|[H|H]]; subst; tauto.
  - simpl. intros H. repeat (destruct H as [H|H]; [discriminate H|]). exact H.
Qed.

(** ** The searches of the Claude, OpenRouter and Ollama providers *)

Ltac run_search :=
  unfold first_choice; unfold try_except, bind, raise, external, ret;
  cbv beta iota zeta;
  repeat (match goal with
  | |- context [_standardize_result _ _ _ true None _] =>
      rewrite standardize_success_run
  | |- context [_standardize_result _ _ _ false (Some _) _] =>
      rewrite standardize_failure_run
  | |- context [match ?x with inl _ => _ | inr _ => _ end] => destruct x eqn:?
  | |- context [match ?x with Some _ => _ | None => _ end] => destruct x eqn:?
  | |- context [match ?x with [] => _ | _ :: _ => _ end] => destruct x eqn:?
  | |- context [if ?x then _ else _] => destruct x eqn:?
  end; cbv beta iota zeta).

(** A search of the Claude provider ends normally, either with the text of
    the answer and [success = True], or, when the call raised (also for a
    missing client), with the failed result for the exception. *)
Lemma claude_search_run env self query qi w :
  exists r w',
    claude_search env self query qi w = (Ok r, w', []) /\
    ((exists ts text, r = result_dict ts (VStr text) qi true) \/
     (exists ts msg, r = failed_result ts qi msg)).
Proof.
  unfold claude_search. run_search; do 2 eexists; (split; [reflexivity|]).
  all: try (left; do 2 eexists; reflexivity).
  all: right; do 2 eexists; reflexivity.
Qed.

Lemma openrouter_search_run env self query qi w :
  exists r w',
    openrouter_search env self query qi w = (Ok r, w', []) /\
    ((exists ts text, r = result_dict ts (VStr text) qi true) \/
     (exists ts msg, r = failed_result ts qi msg)).
Proof.
  unfold openrouter_search. run_search; do 2 eexists; (split; [reflexivity|]).
  all: try (left; do 2 eexists; reflexivity).
  all: right; do 2 eexists; reflexivity.
Qed.

(** For the Ollama provider the text of a successful result ends with the
    note. *)
Lemma ollama_search_run env self query qi w :
  exists r w',
    ollama_search env self query qi w = (Ok r, w', []) /\
    ((exists ts content, r = result_dict ts (VStr (content ++ ollama_note)) qi true) \/
     (exists ts msg, r = failed_result ts qi msg)).
Proof.
  unfold ollama_search. run_search; do 2 eexists; (split; [reflexivity|]).
  all: try (left; do 2 eexists; reflexivity).
  all: right; do 2 eexists; reflexivity.
Qed.

(** A backend exception becomes the failed result carrying its message. *)
Lemma claude_search_backend_failure env self client query qi w e :
  cl_client self = Some client ->
  anthropic_messages_create env (w_tick w) client
    (AnthropicRequest (cl_model self) (cl_max_tokens self)
       [(cl_web_search_tool_version self, "web_search")]
       [ChatMessage "user" (claude_user_message query)]) = inl e ->
  claude_search env self query qi w =
    (Ok (failed_result (now_isoformat env (S (w_tick w))) qi (exn_str e)),
     advance (advance w), []).
Proof.
  intros Hc He. unfold claude_search, try_except, bind, external.
  rewrite Hc, He. rewrite standardize_failure_run. reflexivity.
Qed.

Lemma openrouter_search_backend_failure env self client query qi w e :
  orp_client self = Some client ->
  openai_chat_create env (w_tick w) client
    (OpenAIRequest (orp_model self) (orp_max_tokens self)
       [ChatMessage "system" research_system_prompt;
        ChatMessage "user" (claude_user_message query)]) = inl e ->
  openrouter_search env self query qi w =
    (Ok (failed_result (now_isoformat env (S (w_tick w))) qi (exn_str e)),
     advance (advance w), []).
Proof.
  intros Hc He. unfold openrouter_search, try_except, bind, external.
  rewrite Hc, He. rewrite standardize_failure_run. reflexivity.
Qed.

Lemma ollama_search_backend_failure env self query qi w e :
  ollama_pkg env = true ->
  ollama_chat env (w_tick w)
    (OllamaRequest (olp_model self)
       [ChatMessage "system" ollama_system_prompt;
        ChatMessage "user" (ollama_user_message query)]
       (olp_max_tokens self)) = inl e ->
  ollama_search env self query qi w =
    (Ok (failed_result (now_isoformat env (S (w_tick w))) qi (exn_str e)),
     advance (advance w), []).
Proof.
  intros Hc He. unfold ollama_search, try_except, bind, external.
  rewrite Hc, He. rewrite standardize_failure_run. reflexivity.
Qed.

(** ** The search of the MCP provider *)

Lemma mcp_frame_refl self : mcp_frame self self.
Proof. destruct self. repeat split; auto. Qed.

Lemma mcp_frame_trans a b c : mcp_frame a b -> mcp_frame b c -> mcp_frame a c.
Proof.
  intros [Hab [Hab1 Hab2]] [Hbc [Hbc1 Hbc2]]. split; [|split; auto].
  unfold same_settings in *. rewrite Hbc. rewrite Hab at 1.
  destruct a, b, c; reflexivity.
Qed.

Lemma mcp_frame_llm_type a b : mcp_frame a b -> mcp_llm_type b = mcp_llm_type a.
Proof. intros [H _]. rewrite H. reflexivity. Qed.


Lemma mcp_frame_set_mcp_client self c :
  mcp_mcp_client self = None -> mcp_frame self (set_mcp_client self (Some c)).
Proof.
  intros H. destruct self; simpl in *; subst. repeat split; auto; discriminate.
Qed.

Lemma mcp_frame_set_llm_client self c :
  mcp_llm_client self = None -> mcp_frame self (set_llm_client self (Some c)).
Proof.
  intros H. destruct self; simpl in *; subst. repeat split; auto; discriminate.
Qed.

Ltac run_method :=
  unfold first_choice, llm_messages_create, llm_chat_create;
  unfold try_except, bind, raise, external, ret, in_world, get_self, set_self,
    environ_get;
  cbn [fst snd];
  repeat (match goal with
  | |- context [match ?x with inl _ => _ | inr _ => _ end] => destruct x eqn:?
  | |- context [match ?x with Some _ => _ | None => _ end] => destruct x eqn:?
  | |- context [match ?x with [] => _ | _ :: _ => _ end] => destruct x eqn:?
  | |- context [match ?x with LlmAnthropic _ => _ | LlmOpenAI _ => _ end] =>
      destruct x eqn:?
  | |- context [if ?x then _ else _] => destruct x eqn:?
  end; cbn [fst snd]).

(** Starting the MCP client touches neither the world nor the trace. *)
Lemma init_mcp_client_run env self w :
  (mcp_pkg env = true /\ exists c, _init_mcp_client env self w = (Ok c, w, [])) \/
  (mcp_pkg env = false /\ exists e, _init_mcp_client env self w = (Raise e, w, [])).
Proof.
  unfold _init_mcp_client. destruct (mcp_pkg env); [left | right];
    (split; [reflexivity|]); cbn [negb]; run_method; eexists; reflexivity.
Qed.

Lemma perform_web_search_run env query self w :
  exists text self',
    _perform_web_search env query (self, w) = (Ok text, (self', w), []) /\
    mcp_frame self self'.
Proof.
  unfold _perform_web_search.
  unfold try_except at 1, bind at 1, get_self at 1. cbn [fst snd].
  destruct (mcp_mcp_client self) eqn:Hc.
  - do 2 eexists. split; [reflexivity | apply mcp_frame_refl].
  - unfold bind, in_world, set_self. cbn [fst snd].
    destruct (init_mcp_client_run env self w) as [[_ [c Hi]] | [_ [e Hi]]];
      rewrite Hi; cbn [fst snd]; do 2 eexists.
    + split; [reflexivity | apply mcp_frame_set_mcp_client, Hc].
    + split; [reflexivity | apply mcp_frame_refl].
Qed.

Lemma init_llm_client_run env self w :
  (exists c, _init_llm_client env self w = (Ok c, w, [])) \/
  (exists e, _init_llm_client env self w = (Raise e, w, [])).
Proof.
  unfold _init_llm_client. run_method;
    first [left; eexists; reflexivity | right; eexists; reflexivity].
Qed.

Ltac frame_goal :=
  match goal with
  | |- mcp_frame ?a ?a => apply mcp_frame_refl
  | H : mcp_llm_client ?a = None |- mcp_frame ?a (set_llm_client ?a (Some _)) =>
      apply mcp_frame_set_llm_client, H
  end.

Ltac known_type_goal :=
  intros [Hk | Hk];
  repeat match goal with
  | H : String.eqb (mcp_llm_type _) _ = false |- _ =>
      rewrite Hk in H; discriminate H
  end.

Lemma analyze_with_llm_run env query search_results self w :
  exists v self' w',
    _analyze_with_llm env query search_results (self, w) = (Ok v, (self', w'), []) /\
    mcp_frame self self' /\
    (known_llm_type self -> exists text, v = VStr text).
Proof.
  unfold _analyze_with_llm, _init_llm_client.
  run_method;
    cbn [mcp_llm_client mcp_llm_type set_llm_client mcp_model mcp_max_tokens] in *;
    try discriminate;
    do 3 eexists; (split; [reflexivity|]); (split; [frame_goal|]);
    first [intros _; eexists; reflexivity | known_type_goal].
Qed.

(** A search of the MCP provider ends normally and always with
    [success = True]; it may set the two client handles of the provider and
    changes nothing else in it. *)
Lemma mcp_search_run env query qi self w :
  exists ts v self' w',
    mcp_search env query qi (self, w) =
      (Ok (result_dict ts v qi true), (self', w'), []) /\
    mcp_frame self self' /\
    (known_llm_type self -> exists text, v = VStr text).
Proof.
  destruct (perform_web_search_run env query self w) as (text & self1 & Hp & Hf1).
  destruct (analyze_with_llm_run env query text self1 w)
    as (v & self2 & w2 & Ha & Hf2 & Hv).
  unfold mcp_search, try_except, bind. rewrite Hp, Ha.
  unfold in_world. cbn [fst snd]. rewrite standardize_success_run.
  do 4 eexists. split; [reflexivity|]. split.
  - eapply mcp_frame_trans; eassumption.
  - intros Hk. apply Hv. unfold known_llm_type in *.
    rewrite (mcp_frame_llm_type _ _ Hf1). exact Hk.
Qed.

(** ** Searching through the interface *)




Lemma provider_frame_name env a b :
  provider_frame a b -> get_provider_name env b = get_provider_name env a.
Proof. destruct a, b; simpl; try tauto; reflexivity. Qed.


Lemma call_method_ok {S A} (m : MS (S * world) A) (self : S) w a self' w' t :
  m (self, w) = (Ok a, (self', w'), t) ->
  call_method m self w = (Ok (a, self'), w', t).
Proof. intros H. unfold call_method. rewrite H. reflexivity. Qed.

Lemma call_plain_method {S A} (f : S -> M A) (self : S) w a w' t :
  f self w = (Ok a, w', t) ->
  call_method (do self0 <- get_self; in_world (f self0)) self w = (Ok (a, self), w', t).
Proof.
  intros H. unfold call_method, bind, get_self, in_world. cbn [fst snd].
  rewrite H. reflexivity.
Qed.

(** Every search through the interface ends normally with one result for
    the query, records one event, and leaves the provider object as
    [provider_frame] says. The text of the result is a string when the
    provider object is as its constructor left it. *)
Lemma provider_search_run env p query qi w :
  exists r p' w',
    provider_search env p query qi w =
      (Ok (r, p'), w', [EvSearch (provider_id env p) query]) /\
    provider_frame p p' /\
    r !! "query_info" = Some (VQuery qi) /\
    (exists b, r !! "success" = Some (VBool b)) /\
    is_Some (r !! "timestamp") /\
    (provider_wf p -> well_formed_result qi r).
Proof.
  unfold provider_search. unfold bind at 1, log. destruct p as [c|c|c|c].
  - destruct (claude_search_run env c query qi w) as (r & w' & Hs & Hr).
    cbn [search ClaudeProvider_impl].
    rewrite (bind_ok _ _ _ _ _ _
               (call_plain_method (fun self => claude_search env self query qi) c w r w' [] Hs)).
    unfold ret. cbn [fst snd].
    exists r, (PClaude c), w'. split; [reflexivity|]. split; [reflexivity|].
    destruct Hr as [(ts & text & ->) | (ts & msg & ->)].
    + repeat split; try reflexivity; eexists; reflexivity.
    + pose proof (failed_result_well_formed ts qi msg) as Hwf.
      destruct Hwf as (H1 & H2 & H3 & H4). repeat split; auto.
  - destruct (openrouter_search_run env c query qi w) as (r & w' & Hs & Hr).
    cbn [search OpenRouterProvider_impl].
    rewrite (bind_ok _ _ _ _ _ _
               (call_plain_method (fun self => openrouter_search env self query qi) c w r w' [] Hs)).
    unfold ret. cbn [fst snd].
    exists r, (POpenRouter c), w'. split; [reflexivity|]. split; [reflexivity|].
    destruct Hr as [(ts & text & ->) | (ts & msg & ->)].
    + repeat split; try reflexivity; eexists; reflexivity.
    + pose proof (failed_result_well_formed ts qi msg) as Hwf.
      destruct Hwf as (H1 & H2 & H3 & H4). repeat split; auto.
  - destruct (ollama_search_run env c query qi w) as (r & w' & Hs & Hr).
    cbn [search OllamaProvider_impl].
    rewrite (bind_ok _ _ _ _ _ _
               (call_plain_method (fun self => ollama_search env self query qi) c w r w' [] Hs)).
    unfold ret. cbn [fst snd].
    exists r, (POllama c), w'. split; [reflexivity|]. split; [reflexivity|].
    destruct Hr as [(ts & text & ->) | (ts & msg & ->)].
    + repeat split; try reflexivity; eexists; reflexivity.
    + pose proof (failed_result_well_formed ts qi msg) as Hwf.
      destruct Hwf as (H1 & H2 & H3 & H4). repeat split; auto.
  - destruct (mcp_search_run env query qi c w) as (ts & v & c' & w' & Hs & Hf & Hv).
    cbn [search MCPProvider_impl].
    rewrite (bind_ok _ _ _ _ _ _ (call_method_ok _ _ _ _ _ _ _ Hs)).
    unfold ret. cbn [fst snd].
    exists (result_dict ts v qi true), (PMCP c'), w'.
    split; [reflexivity|]. split; [exact Hf|].
    split; [reflexivity|]. split; [eexists; reflexivity|].
    split; [eexists; reflexivity|].
    intros Hk. destruct (Hv Hk) as [text ->]. apply result_dict_well_formed.
Qed.

(** ** [execute_searches] *)







(** ** Strings *)












Lemma str_contains_app_r pat a b :
  str_contains pat b = true -> str_contains pat (a ++ b) = true.
Proof.
  intros H. induction a as [|c a IH]; [exact H|].
  change (String c a ++ b) with (String c (a ++ b)).
  cbn [str_contains]. rewrite IH. apply orb_true_r.
Qed.


(** ** The registry *)



Lemma detect_llm_type_known model :
  _detect_llm_type model = "claude" \/ _detect_llm_type model = "openai".
Proof.
  unfold _detect_llm_type.
  repeat match goal with
  | |- context [if ?x then _ else _] => destruct x
  end; auto.
Qed.

(** A constructor allocates the next object identity and ends normally;
    only the constructor of [OllamaProvider] writes to the environment. *)
Lemma construct_run env c cfg w :
  exists p w',
    construct env c cfg w = (Ok p, w', []) /\
    class_of p = c /\
    provider_id env p = w_next_id w /\
    w_next_id w' = S (w_next_id w) /\
    w_tick w' = w_tick w /\
    w_files w' = w_files w /\
    provider_wf p.
Proof.
  destruct c; unfold construct, ClaudeProvider_init, OpenRouterProvider_init,
    OllamaProvider_init, MCPProvider_init;
    unfold bind, fresh_id, environ_get, environ_set, ret; cbn [fst snd].
  - do 2 eexists. repeat split; reflexivity.
  - do 2 eexists. repeat split; reflexivity.
  - destruct (str_truthy _); do 2 eexists; repeat split; reflexivity.
  - do 2 eexists. repeat split; try reflexivity. apply detect_llm_type_known.
Qed.

Lemma get_provider_name_class env p :
  get_provider_name env p = class_key (class_of p).
Proof. destruct p; reflexivity. Qed.

Lemma create_provider_registered env name cfg w c :
  registry_lookup PROVIDERS (normalize_name name) = Some c ->
  create_provider env name cfg w = construct env c cfg w.
Proof. intros H. unfold create_provider. fold (normalize_name name). rewrite H. reflexivity. Qed.

Lemma create_provider_unregistered env name cfg w :
  registry_lookup PROVIDERS (normalize_name name) = None ->
  create_provider env name cfg w =
    (Raise (Exn "ValueError" (unknown_provider_message (normalize_name name))), w, []).
Proof. intros H. unfold create_provider. fold (normalize_name name). rewrite H. reflexivity. Qed.

(** Every provider object the registry hands out is as the searches
    expect it. *)
Lemma create_provider_wf env name cfg w p w' t :
  create_provider env name cfg w = (Ok p, w', t) -> provider_wf p.
Proof.
  destruct (registry_lookup PROVIDERS (normalize_name name)) as [c|] eqn:Hc.
  - rewrite (create_provider_registered _ _ _ _ _ Hc).
    destruct (construct_run env c cfg w) as (p0 & w0 & Hr & _ & _ & _ & _ & _ & Hwf).
    rewrite Hr. intros [= <- _ _]. exact Hwf.
  - rewrite (create_provider_unregistered _ _ _ _ Hc). discriminate.
Qed.




(** ** Validation *)

Lemma same_but_clock_refl w : same_but_clock w w.
Proof. repeat split. Qed.

Lemma same_but_clock_advance w : same_but_clock w (advance w).
Proof. repeat split. Qed.


Lemma model_names_run models w :
  (exists names, model_names models w = (Ok names, w, [])) \/
  (exists e, model_names models w = (Raise e, w, [])).
Proof.
  induction models as [|[n|] rest IH]; cbn [model_names].
  - left. eexists. reflexivity.
  - unfold bind. destruct IH as [[names ->] | [e ->]].
    + left. eexists. reflexivity.
    + right. eexists. reflexivity.
  - right. eexists. reflexivity.
Qed.

Lemma env_vars_set_run env_vars w :
  exists ok, env_vars_set env_vars w = (Ok ok, w, []).
Proof.
  induction env_vars as [|v rest IH]; cbn [env_vars_set].
  - eexists. reflexivity.
  - unfold bind, environ_get. cbn [fst snd].
    destruct (negb (error_truthy (w_environ w !! v))).
    + eexists. reflexivity.
    + destruct IH as [ok ->]. eexists. reflexivity.
Qed.

Lemma claude_validate_config_run env c w :
  exists ok, claude_validate_config env c w = (Ok ok, w, []).
Proof.
  unfold claude_validate_config, bind, environ_get, ret.
  destruct (negb (anthropic_pkg env)); cbn [fst snd];
    [|destruct (negb (error_truthy _)); [|destruct (cl_client c)]];
    eexists; reflexivity.
Qed.

Lemma openrouter_validate_config_run env c w :
  exists ok, openrouter_validate_config env c w = (Ok ok, w, []).
Proof.
  unfold openrouter_validate_config, bind, environ_get, ret.
  destruct (negb (openai_pkg env)); cbn [fst snd];
    [|destruct (negb (error_truthy _)); [|destruct (orp_client c)]];
    eexists; reflexivity.
Qed.

Lemma ollama_validate_config_run env c w :
  exists ok w',
    ollama_validate_config env c w = (Ok ok, w', []) /\ same_but_clock w w'.
Proof.
  unfold ollama_validate_config.
  destruct (negb (ollama_pkg env)).
  - do 2 eexists. split; [reflexivity | apply same_but_clock_refl].
  - unfold try_except, bind, external.
    destruct (ollama_list env (w_tick w)) as [e | models]; cbv beta iota.
    + do 2 eexists. split; [reflexivity | apply same_but_clock_advance].
    + destruct (model_names_run models (advance w)) as [[names ->] | [e ->]];
        cbv beta iota.
      * destruct (negb (str_in (olp_model c) names));
          do 2 eexists; (split; [reflexivity | apply same_but_clock_advance]).
      * do 2 eexists. split; [reflexivity | apply same_but_clock_advance].
Qed.

Lemma mcp_validate_config_run env c w :
  exists ok, mcp_validate_config env c w = (Ok ok, w, []).
Proof.
  unfold mcp_validate_config.
  repeat match goal with
  | |- context [if ?x then _ else _] => destruct x
  end; try (eexists; reflexivity).
  apply env_vars_set_run.
Qed.

(** [validate_config] never raises: it answers with a boolean, and the
    call is recorded with its answer. *)
Lemma provider_validate_config_run env p w :
  exists ok w',
    provider_validate_config env p w =
      (Ok ok, w', [EvValidate (provider_id env p) ok]) /\
    same_but_clock w w'.
Proof.
  unfold provider_validate_config. destruct p as [c|c|c|c];
    cbn [validate_config ClaudeProvider_impl OpenRouterProvider_impl
           OllamaProvider_impl MCPProvider_impl].
  - destruct (claude_validate_config_run env c w) as [ok Hok].
    rewrite (bind_ok _ _ _ _ _ _ Hok). exists ok, w.
    split; [reflexivity | apply same_but_clock_refl].
  - destruct (openrouter_validate_config_run env c w) as [ok Hok].
    rewrite (bind_ok _ _ _ _ _ _ Hok). exists ok, w.
    split; [reflexivity | apply same_but_clock_refl].
  - destruct (ollama_validate_config_run env c w) as (ok & w' & Hok & Hw).
    rewrite (bind_ok _ _ _ _ _ _ Hok). exists ok, w'.
    split; [reflexivity | exact Hw].
  - destruct (mcp_validate_config_run env c w) as [ok Hok].
    rewrite (bind_ok _ _ _ _ _ _ Hok). exists ok, w.
    split; [reflexivity | apply same_but_clock_refl].
Qed.

(** ** Traces *)







(** ** One candidate *)

(** What trying a candidate comes to: it is not constructed; or it is
    constructed, with a new identity, and says whether it validates. *)
Lemma candidate_cases env cfg name w :
  (exists e, create_provider env name cfg w = (Raise e, w, [])) \/
  (exists p w1 ok w2,
     create_provider env name cfg w = (Ok p, w1, []) /\
     provider_wf p /\
     provider_id env p = w_next_id w /\
     w_next_id w1 = S (w_next_id w) /\
     w_files w1 = w_files w /\
     provider_validate_config env p w1 =
       (Ok ok, w2, [EvValidate (provider_id env p) ok]) /\
     same_but_clock w1 w2).
Proof.
  destruct (registry_lookup PROVIDERS (normalize_name name)) as [c|] eqn:Hc.
  - right. rewrite (create_provider_registered _ _ _ _ _ Hc).
    destruct (construct_run env c cfg w)
      as (p & w1 & Hr & _ & Hid & Hn & _ & Hfi & Hwf).
    destruct (provider_validate_config_run env p w1) as (ok & w2 & Hv & Hw).
    exists p, w1, ok, w2. auto 10.
  - left. rewrite (create_provider_unregistered _ _ _ _ Hc). eexists. reflexivity.
Qed.

Lemma fallback_attempt_unconstructed env cfg max_queries name w e w' t :
  create_provider env name cfg w = (Raise e, w', t) ->
  fallback_attempt env cfg max_queries name w = (Ok None, w', (t ++ [])%list).
Proof.
  intros H. unfold fallback_attempt, try_except, bind. rewrite H. reflexivity.
Qed.

Lemma fallback_attempt_invalid env cfg max_queries name w p w1 t1 w2 t2 :
  create_provider env name cfg w = (Ok p, w1, t1) ->
  provider_validate_config env p w1 = (Ok false, w2, t2) ->
  fallback_attempt env cfg max_queries name w =
    (Ok None, w2, (t1 ++ t2 ++ [])%list).
Proof.
  intros H1 H2. unfold fallback_attempt, try_except.
  rewrite (bind_ok _ _ _ _ _ _ H1), (bind_ok _ _ _ _ _ _ H2). reflexivity.
Qed.

Lemma fallback_attempt_valid env cfg max_queries name w p w1 t1 w2 t2 :
  create_provider env name cfg w = (Ok p, w1, t1) ->
  provider_validate_config env p w1 = (Ok true, w2, t2) ->
  fallback_attempt env cfg max_queries name w =
    match execute_searches env p cfg max_queries w2 with
    | (Ok path, w3, t3) => (Ok (Some path), w3, (t1 ++ t2 ++ t3 ++ [])%list)
    | (Raise e, w3, t3) => (Ok None, w3, ((t1 ++ t2 ++ t3) ++ [])%list)
    | (SysExit c, w3, t3) => (SysExit c, w3, (t1 ++ t2 ++ t3)%list)
    end.
Proof.
  intros H1 H2. unfold fallback_attempt, try_except.
  rewrite (bind_ok _ _ _ _ _ _ H1), (bind_ok _ _ _ _ _ _ H2).
  unfold bind, ret.
  destruct (execute_searches env p cfg max_queries w2) as [[[path|e|c] w3] t3];
    reflexivity.
Qed.

Lemma try_fallbacks_cons env cfg max_queries name rest w :
  try_fallbacks env cfg max_queries (name :: rest) w =
    match fallback_attempt env cfg max_queries name w with
    | (Ok (Some path), w', t) => (Ok (Some path), w', (t ++ [])%list)
    | (Ok None, w', t) => prepend t (try_fallbacks env cfg max_queries rest w')
    | (Raise e, w', t) => (Raise e, w', t)
    | (SysExit c, w', t) => (SysExit c, w', t)
    end.
Proof.
  cbn [try_fallbacks]. fold (fallback_attempt env cfg max_queries name).
  unfold bind, prepend.
  destruct (fallback_attempt env cfg max_queries name w) as [[[[path|]|e|c] w'] t];
    try reflexivity.
Qed.






(** ** The primary provider *)

Lemma run_daily_unconstructed env cfg max_queries provider_name w e w' t :
  create_provider env (primary_name cfg provider_name) cfg w = (Raise e, w', t) ->
  run_daily_searches env cfg max_queries provider_name w =
    prepend t (after_primary_failure env cfg max_queries w').
Proof.
  intros H. unfold run_daily_searches, try_except.
  fold (primary_name cfg provider_name). fold (fallback_names cfg).
  unfold bind at 1. rewrite H.
  fold (after_primary_failure env cfg max_queries). reflexivity.
Qed.

Lemma run_daily_invalid env cfg max_queries provider_name w p w1 t1 w2 t2 :
  create_provider env (primary_name cfg provider_name) cfg w = (Ok p, w1, t1) ->
  provider_validate_config env p w1 = (Ok false, w2, t2) ->
  run_daily_searches env cfg max_queries provider_name w =
    prepend (t1 ++ t2 ++ [])%list (after_primary_failure env cfg max_queries w2).
Proof.
  intros H1 H2. unfold run_daily_searches, try_except.
  fold (primary_name cfg provider_name). fold (fallback_names cfg).
  rewrite (bind_ok _ _ _ _ _ _ H1), (bind_ok _ _ _ _ _ _ H2).
  unfold bind at 1, raise. cbn [negb].
  fold (after_primary_failure env cfg max_queries). reflexivity.
Qed.

Lemma run_daily_valid env cfg max_queries provider_name w p w1 t1 w2 t2 :
  create_provider env (primary_name cfg provider_name) cfg w = (Ok p, w1, t1) ->
  provider_validate_config env p w1 = (Ok true, w2, t2) ->
  run_daily_searches env cfg max_queries provider_name w =
    match execute_searches env p cfg max_queries w2 with
    | (Ok path, w3, t3) => (Ok path, w3, (t1 ++ t2 ++ [] ++ t3)%list)
    | (Raise e, w3, t3) =>
        prepend (t1 ++ t2 ++ [] ++ t3)%list
          (after_primary_failure env cfg max_queries w3)
    | (SysExit c, w3, t3) => (SysExit c, w3, (t1 ++ t2 ++ [] ++ t3)%list)
    end.
Proof.
  intros H1 H2. unfold run_daily_searches, try_except.
  fold (primary_name cfg provider_name). fold (fallback_names cfg).
  rewrite (bind_ok _ _ _ _ _ _ H1), (bind_ok _ _ _ _ _ _ H2).
  unfold bind at 1, ret. cbn [negb].
  fold (after_primary_failure env cfg max_queries).
  destruct (execute_searches env p cfg max_queries w2) as [[[path|e|c] w3] t3];
    reflexivity.
Qed.

(** ** The run *)


Lemma create_provider_ok env name cfg w p w1 t :
  create_provider env name cfg w = (Ok p, w1, t) ->
  t = [] /\ provider_wf p /\ provider_id env p = w_next_id w /\
  w_next_id w1 = S (w_next_id w) /\ w_files w1 = w_files w.
Proof.
  intros H. destruct (candidate_cases env cfg name w)
    as [[e Hc] | (p' & w1' & ok & w2 & Hc & Hwf & Hid & Hn & Hf & _)];
    rewrite Hc in H; [discriminate H|].
  injection H as <- <- <-. auto.
Qed.

Lemma create_provider_raise env name cfg w e w' t :
  create_provider env name cfg w = (Raise e, w', t) -> w' = w /\ t = [].
Proof.
  intros H. destruct (candidate_cases env cfg name w)
    as [[e' Hc] | (p' & w1' & ok & w2 & Hc & _)];
    rewrite Hc in H; [|discriminate H].
  injection H as _ <- <-. auto.
Qed.

Lemma provider_validate_config_ok env p w ok w' t :
  provider_validate_config env p w = (Ok ok, w', t) ->
  t = [EvValidate (provider_id env p) ok] /\ same_but_clock w w'.
Proof.
  intros H. destruct (provider_validate_config_run env p w) as (ok' & w2 & Hv & Hw).
  rewrite Hv in H. injection H as <- <- <-. auto.
Qed.




(** ** Exhaustion *)

(** A failing candidate leaves at most the record of its failed
    validation, and no file. *)
Lemma candidate_fails_attempt env cfg max_queries name w w' :
  candidate_fails env cfg name w w' ->
  exists t,
    fallback_attempt env cfg max_queries name w = (Ok None, w', t) /\
    Forall is_failed_validation t /\
    w_files w' = w_files w.
Proof.
  intros [(e & t & Hc) | (p & w1 & t1 & t2 & Hc & Hv)].
  - rewrite (fallback_attempt_unconstructed _ _ _ _ _ _ _ _ Hc).
    destruct (create_provider_raise _ _ _ _ _ _ _ Hc) as (-> & ->).
    eexists. split; [reflexivity|]. split; [constructor | reflexivity].
  - rewrite (fallback_attempt_invalid _ _ _ _ _ _ _ _ _ _ Hc Hv).
    destruct (create_provider_ok _ _ _ _ _ _ _ Hc) as (-> & _ & _ & _ & Hf1).
    destruct (provider_validate_config_ok _ _ _ _ _ _ Hv) as (-> & _ & _ & Hf2).
    eexists. split; [reflexivity|]. split.
    + repeat constructor.
    + congruence.
Qed.

Lemma all_candidates_fail_fallbacks env cfg max_queries names :
  forall w w_end,
    all_candidates_fail env cfg names w w_end ->
    exists t,
      try_fallbacks env cfg max_queries names w = (Ok None, w_end, t) /\
      Forall is_failed_validation t /\
      w_files w_end = w_files w.
Proof.
  induction names as [|name rest IH]; intros w w_end H.
  - cbn [all_candidates_fail] in H. subst w_end.
    exists []. split; [reflexivity|]. split; [constructor | reflexivity].
  - destruct H as (w' & Hfail & Hrest).
    destruct (candidate_fails_attempt env cfg max_queries name w w' Hfail)
      as (t & Ha & Ht & Hf).
    destruct (IH w' w_end Hrest) as (t' & Hr & Ht' & Hf').
    rewrite try_fallbacks_cons, Ha, Hr. cbn [prepend].
    eexists. split; [reflexivity|]. split.
    + apply Forall_app. split; assumption.
    + congruence.
Qed.

(** C2. When the primary provider and every fallback provider fails to be
    constructed or fails validation, the run ends with [sys.exit(1)]: no
    search is made and no results file is written. *)
Theorem all_candidates_fail_exits env cfg max_queries provider_name w w_end :
  all_candidates_fail env cfg
    (primary_name cfg provider_name :: fallback_names cfg) w w_end ->
  exists t,
    run_daily_searches env cfg max_queries provider_name w = (SysExit 1, w_end, t) /\
    Forall is_failed_validation t /\
    (forall id query, ~ In (EvSearch id query) t) /\
    (forall path, ~ In (EvWrite path) t) /\
    w_files w_end = w_files w.
Proof.
  intros (w' & Hfail & Hrest).
  destruct (all_candidates_fail_fallbacks env cfg max_queries _ _ _ Hrest)
    as (t' & Hr & Ht' & Hf').
  assert (Hafter : after_primary_failure env cfg max_queries w' = (SysExit 1, w_end, t')).
  { unfold after_primary_failure, bind. rewrite Hr. unfold sys_exit.
    rewrite app_nil_r. reflexivity. }
  assert (Hgoal : exists t,
    run_daily_searches env cfg max_queries provider_name w = (SysExit 1, w_end, t) /\
    Forall is_failed_validation t /\ w_files w_end = w_files w).
  { destruct Hfail as [(e & t & Hc) | (p & w1 & t1 & t2 & Hc & Hv)].
    - rewrite (run_daily_unconstructed _ _ _ _ _ _ _ _ Hc), Hafter.
      destruct (create_provider_raise _ _ _ _ _ _ _ Hc) as (-> & ->).
      eexists. split; [reflexivity|]. split; [exact Ht' | exact Hf'].
    - rewrite (run_daily_invalid _ _ _ _ _ _ _ _ _ _ Hc Hv), Hafter.
      destruct (create_provider_ok _ _ _ _ _ _ _ Hc) as (-> & _ & _ & _ & Hf1).
      destruct (provider_validate_config_ok _ _ _ _ _ _ Hv) as (-> & _ & _ & Hf2).
      eexists. split; [reflexivity|]. split.
      + cbn [app]. constructor; [exact I | exact Ht'].
      + congruence. }
  destruct Hgoal as (t & Hrun & Ht & Hf).
  exists t. split; [exact Hrun|]. split; [exact Ht|].
  rewrite List.Forall_forall in Ht.
  split; [|split; [|exact Hf]].
  - intros id query Hin. exact (Ht _ Hin).
  - intros path Hin. exact (Ht _ Hin).
Qed.

Lemma all_candidates_fail_exits_witness :
  exists t w_end,
    run_daily_searches offline_backend all_providers_config 10 None empty_world =
      (SysExit 1, w_end, t) /\
    w_files w_end = w_files empty_world.
Proof.
  destruct (all_candidates_fail_exits offline_backend all_providers_config 10 None
              empty_world
              (snd (fst (run_daily_searches offline_backend all_providers_config
                           10 None empty_world))))
    as (t & Hrun & _ & _ & _ & Hf).
  - repeat (eexists; split;
            [first [left; do 2 eexists; vm_compute; reflexivity
                   | right; do 4 eexists; split; vm_compute; reflexivity]|]).
    vm_compute. reflexivity.
  - exists t. eexists. split; [exact Hrun | exact Hf].
Defined.

(** ** The Ollama annotation *)

(** C8. A search through the Ollama provider ends normally with a result
    in the standard shape (query, text, success flag, timestamp); when the
    result is a success it has no [error] key and its text ends with the
    note saying that the answer comes from training data and not from a
    web search. *)
Theorem ollama_success_is_annotated env self query qi w :
  exists (r : search_result) w',
    provider_search env (POllama self) query qi w =
      (Ok (r, POllama self), w', [EvSearch (olp_id self) query]) /\
    well_formed_result qi r /\
    (r !! "success" = Some (VBool true) ->
       r !! "error" = None /\
       exists content, r !! "text" = Some (VStr (content ++ ollama_note))).
Proof.
  destruct (ollama_search_run env self query qi w) as (r & w' & Hs & Hr).
  exists r, w'. split; [|split].
  - unfold provider_search. unfold bind at 1, log.
    cbn [search OllamaProvider_impl].
    rewrite (bind_ok _ _ _ _ _ _
               (call_plain_method (fun self => ollama_search env self query qi)
                  self w r w' [] Hs)).
    reflexivity.
  - destruct Hr as [(ts & content & ->) | (ts & msg & ->)].
    + apply result_dict_well_formed.
    + apply failed_result_well_formed.
  - destruct Hr as [(ts & content & ->) | (ts & msg & ->)].
    + intros _. split; [reflexivity|]. exists content. reflexivity.
    + rewrite failed_result_success. discriminate.
Qed.

Lemma ollama_success_is_annotated_witness :
  exists (r : search_result) w',
    provider_search (ollama_backend "The Colony, Woodstock")
      (POllama example_ollama) "Woodstock new venue" example_query empty_world =
      (Ok (r, POllama example_ollama), w', [EvSearch 0%nat "Woodstock new venue"]) /\
    r !! "success" = Some (VBool true) /\
    r !! "error" = None /\
    exists content, r !! "text" = Some (VStr (content ++ ollama_note)).
Proof.
  destruct (ollama_success_is_annotated (ollama_backend "The Colony, Woodstock")
              example_ollama "Woodstock new venue" example_query empty_world)
    as (r & w' & Hs & _ & Himp).
  exists r, w'. split; [exact Hs|].
  assert (Hsucc : r !! "success" = Some (VBool true)).
  { vm_compute in Hs. injection Hs; intros; subst; reflexivity. }
  split; [exact Hsucc | exact (Himp Hsucc)].
Defined.

(** ** What a search changes in the provider *)

(** C9 as worded fails for the MCP provider: on a machine with the
    Anthropic SDK installed and its key set, the first search of a newly
    built MCP provider stores the client it creates in the provider
    object. *)
Lemma mcp_search_sets_llm_client :
  ~ search_keeps_provider anthropic_down_backend (PMCP example_mcp).
Proof.
  intros H.
  pose proof (H "Woodstock new venue" example_query keyed_world _ _ _ _ eq_refl)
    as H'.
  discriminate H'.
Qed.

(** C9, amended. A search through the Claude, OpenRouter or Ollama provider
    leaves every field of the provider object as it was. A search through
    the MCP provider leaves every field as it was except the two client
    handles [mcp_client] and [llm_client], which it creates on first use: a
    handle that is unset may be set by the call, and a handle that is set is
    kept. *)
Theorem search_changes_client_handles_only env p query qi w :
  exists r p' w',
    provider_search env p query qi w =
      (Ok (r, p'), w', [EvSearch (provider_id env p) query]) /\
    match p with
    | PMCP before =>
        exists after,
          p' = PMCP after /\
          after =
            set_llm_client (set_mcp_client before (mcp_mcp_client after))
              (mcp_llm_client after) /\
          (forall c, mcp_mcp_client before = Some c -> mcp_mcp_client after = Some c) /\
          (forall c, mcp_llm_client before = Some c -> mcp_llm_client after = Some c)
    | _ => p' = p
    end.
Proof.
  destruct (provider_search_run env p query qi w) as (r & p' & w' & Hs & Hf & _).
  exists r, p', w'. split; [exact Hs|].
  destruct p, p'; cbn [provider_frame] in Hf; try contradiction;
    try (rewrite Hf; reflexivity).
  destruct Hf as [Hsame [Hk1 Hk2]]. eexists. split; [reflexivity|]. auto.
Qed.

(** ** Failures of the backend *)

(** C4 fails for the MCP provider: when the call to the model raises, its
    search returns a result with [success = True], whose text is the
    message of the error and which has no [error] key. *)
Theorem mcp_search_reports_failure_as_success :
  exists (r : search_result) p' w',
    provider_search anthropic_down_backend (PMCP example_mcp)
      "Woodstock new venue" example_query keyed_world =
      (Ok (r, p'), w', [EvSearch 0%nat "Woodstock new venue"]) /\
    r !! "success" = Some (VBool true) /\
    r !! "text" = Some (VStr "Error analyzing with LLM: connection refused") /\
    r !! "error" = None.
Proof. do 3 eexists. split; [reflexivity|]. repeat split. Qed.

(** ** Sorting and truncating the queries *)

Lemma insert_by_priority_perm q l : Permutation (insert_by_priority q l) (q :: l).
Proof.
  induction l as [|x rest IH]; cbn [insert_by_priority]; [reflexivity|].
  destruct (q_priority q <=? q_priority x); [reflexivity|].
  rewrite IH. apply perm_swap.
Qed.

Lemma sort_by_priority_perm l : Permutation (sort_by_priority l) l.
Proof.
  induction l as [|q rest IH]; cbn [sort_by_priority]; [reflexivity|].
  rewrite insert_by_priority_perm, IH. reflexivity.
Qed.

Lemma insert_by_priority_sorted q l :
  StronglySorted priority_le l -> StronglySorted priority_le (insert_by_priority q l).
Proof.
  induction 1 as [|x rest Hs IH Hx]; cbn [insert_by_priority].
  - repeat constructor.
  - destruct (q_priority q <=? q_priority x) eqn:Hle.
    + apply Z.leb_le in Hle. constructor; [constructor; assumption|].
      constructor; [exact Hle|].
      eapply List.Forall_impl; [|exact Hx]. unfold priority_le. intros; lia.
    + apply Z.leb_gt in Hle. constructor; [exact IH|].
      apply (Permutation_Forall (Permutation_sym (insert_by_priority_perm q rest))).
      constructor; [unfold priority_le; lia | exact Hx].
Qed.

Lemma sort_by_priority_sorted l : StronglySorted priority_le (sort_by_priority l).
Proof.
  induction l as [|q rest IH]; cbn [sort_by_priority]; [constructor|].
  apply insert_by_priority_sorted, IH.
Qed.

(** The sort is stable: the queries of one priority keep their order. *)
Lemma insert_by_priority_stable p q l :
  with_priority p (insert_by_priority q l) = with_priority p (q :: l).
Proof.
  unfold with_priority.
  induction l as [|x rest IH]; cbn [insert_by_priority]; [reflexivity|].
  destruct (q_priority q <=? q_priority x) eqn:Hle; [reflexivity|].
  apply Z.leb_gt in Hle. cbn [List.filter] in *. rewrite IH.
  destruct (q_priority x =? p) eqn:Hx, (q_priority q =? p) eqn:Hq;
    try reflexivity.
  apply Z.eqb_eq in Hx, Hq. lia.
Qed.

Lemma sort_by_priority_stable p l :
  with_priority p (sort_by_priority l) = with_priority p l.
Proof.
  induction l as [|q rest IH]; cbn [sort_by_priority]; [reflexivity|].
  rewrite insert_by_priority_stable. unfold with_priority in *.
  cbn [List.filter]. rewrite IH. reflexivity.
Qed.

Lemma strongly_sorted_app_le l1 l2 :
  StronglySorted priority_le (l1 ++ l2) ->
  forall a b, In a l1 -> In b l2 -> q_priority a <= q_priority b.
Proof.
  induction l1 as [|x l1 IH]; intros Hs a b Ha Hb; [destruct Ha|].
  cbn [app] in Hs. apply StronglySorted_inv in Hs as [Hs Hx].
  destruct Ha as [<- | Ha].
  - rewrite List.Forall_forall in Hx. apply Hx, in_or_app. right. exact Hb.
  - apply IH; assumption.
Qed.

Lemma strongly_sorted_app_l l1 l2 :
  StronglySorted priority_le (l1 ++ l2) -> StronglySorted priority_le l1.
Proof.
  induction l1 as [|x l1 IH]; intros Hs; [constructor|].
  cbn [app] in Hs. apply StronglySorted_inv in Hs as [Hs Hx].
  constructor; [apply IH, Hs|].
  apply Forall_app in Hx as [Hx _]. exact Hx.
Qed.

Lemma with_priority_app p l1 l2 :
  with_priority p (l1 ++ l2) = (with_priority p l1 ++ with_priority p l2)%list.
Proof. apply List.filter_app. Qed.

Lemma slice_to_nonneg {A} (limit : Z) (l : list A) :
  0 <= limit -> slice_to limit l = firstn (Z.to_nat limit) l.
Proof.
  intros H. unfold slice_to. destruct (0 <=? limit) eqn:E; [reflexivity|].
  apply Z.leb_gt in E. lia.
Qed.

(** C6. When the loops of [build_search_queries] produce the list [all] and
    the limit [K] is between 0 and the length of [all], the builder returns
    exactly [K] queries. They are sorted by non-decreasing priority, no
    query left out has a lower priority than one returned, and among the
    queries of one priority the ones returned are the first in the order
    in which they were produced. *)
Theorem build_search_queries_truncation env cfg all K :
  generated_queries env cfg = Ok all ->
  0 <= K <= Z.of_nat (length all) ->
  exists emitted rest,
    build_search_queries env cfg K = Ok emitted /\
    length emitted = Z.to_nat K /\
    Permutation (emitted ++ rest) all /\
    (forall a b, In a emitted -> In b rest -> q_priority a <= q_priority b) /\
    StronglySorted priority_le emitted /\
    (forall p,
       with_priority p all = (with_priority p emitted ++ with_priority p rest)%list).
Proof.
  intros Hgen [H0 HK].
  exists (firstn (Z.to_nat K) (sort_by_priority all)),
         (skipn (Z.to_nat K) (sort_by_priority all)).
  pose proof (sort_by_priority_sorted all) as Hs.
  rewrite <- (firstn_skipn (Z.to_nat K) (sort_by_priority all)) in Hs.
  split; [|split; [|split; [|split; [|split]]]].
  - unfold build_search_queries. rewrite Hgen. cbn [obind].
    rewrite (slice_to_nonneg _ _ H0). reflexivity.
  - rewrite length_firstn.
    rewrite (Permutation_length (sort_by_priority_perm all)). lia.
  - rewrite firstn_skipn. apply sort_by_priority_perm.
  - apply strongly_sorted_app_le, Hs.
  - eapply strongly_sorted_app_l, Hs.
  - intros p. rewrite <- with_priority_app, firstn_skipn.
    symmetry. apply sort_by_priority_stable.
Qed.

Lemma build_search_queries_truncation_witness :
  exists emitted rest,
    build_search_queries offline_backend hudson_valley_config 4 = Ok emitted /\
    length emitted = 4%nat /\
    Permutation (emitted ++ rest) hudson_valley_queries.
Proof.
  destruct (build_search_queries_truncation offline_backend hudson_valley_config
              hudson_valley_queries 4) as (emitted & rest & Hb & Hl & Hp & _).
  - reflexivity.
  - cbn. lia.
  - exists emitted, rest. auto.
Defined.

(** * Further properties of the code *)

(** ** The registry and the provider names *)

(** X1. The name a provider object reports is a registered name, and
    creating a provider under that name gives an object of the same class
    (which reports the same name). *)
Theorem provider_name_round_trip env p cfg w :
  In (get_provider_name env p) list_providers /\
  exists p' w',
    create_provider env (get_provider_name env p) cfg w = (Ok p', w', []) /\
    class_of p' = class_of p /\
    get_provider_name env p' = get_provider_name env p.
Proof.
  assert (Hl : registry_lookup PROVIDERS (normalize_name (get_provider_name env p))
               = Some (class_of p)) by (destruct p; reflexivity).
  split.
  - destruct p; simpl; tauto.
  - rewrite (create_provider_registered _ _ _ _ _ Hl).
    destruct (construct_run env (class_of p) cfg w) as (p' & w' & Hr & Hc & _).
    exists p', w'. split; [exact Hr|]. split; [exact Hc|].
    rewrite !get_provider_name_class, Hc. reflexivity.
Qed.

(** ** Searches *)



(** X3. For the Claude, OpenRouter and Ollama providers an exception of
    the backend call becomes a result with [success = False] and empty
    text; its [error] is the message of the exception, and is left out when
    that message is empty. *)
Theorem backend_exception_becomes_failed_result env query qi w e :
  (forall self client,
     cl_client self = Some client ->
     anthropic_messages_create env (w_tick w) client
       (AnthropicRequest (cl_model self) (cl_max_tokens self)
          [(cl_web_search_tool_version self, "web_search")]
          [ChatMessage "user" (claude_user_message query)]) = inl e ->
     exists r : search_result,
       claude_search env self query qi w = (Ok r, advance (advance w), []) /\
       r !! "success" = Some (VBool false) /\
       r !! "text" = Some (VStr "") /\
       r !! "error" =
         (if str_truthy (exn_str e) then Some (VStr (exn_str e)) else None)) /\
  (forall self client,
     orp_client self = Some client ->
     openai_chat_create env (w_tick w) client
       (OpenAIRequest (orp_model self) (orp_max_tokens self)
          [ChatMessage "system" research_system_prompt;
           ChatMessage "user" (claude_user_message query)]) = inl e ->
     exists r : search_result,
       openrouter_search env self query qi w = (Ok r, advance (advance w), []) /\
       r !! "success" = Some (VBool false) /\
       r !! "text" = Some (VStr "") /\
       r !! "error" =
         (if str_truthy (exn_str e) then Some (VStr (exn_str e)) else None)) /\
  (forall self,
     ollama_pkg env = true ->
     ollama_chat env (w_tick w)
       (OllamaRequest (olp_model self)
          [ChatMessage "system" ollama_system_prompt;
           ChatMessage "user" (ollama_user_message query)]
          (olp_max_tokens self)) = inl e ->
     exists r : search_result,
       ollama_search env self query qi w = (Ok r, advance (advance w), []) /\
       r !! "success" = Some (VBool false) /\
       r !! "text" = Some (VStr "") /\
       r !! "error" =
         (if str_truthy (exn_str e) then Some (VStr (exn_str e)) else None)).
Proof.
  assert (Hfailed : forall ts,
    failed_result ts qi (exn_str e) !! "text" = Some (VStr "")).
  { intros ts. unfold failed_result. destruct (str_truthy (exn_str e)); reflexivity. }
  split; [|split].
  - intros self client Hc He.
    rewrite (claude_search_backend_failure _ _ _ _ _ _ _ Hc He).
    eexists. split; [reflexivity|].
    split; [apply failed_result_success|].
    split; [apply Hfailed | apply failed_result_error].
  - intros self client Hc He.
    rewrite (openrouter_search_backend_failure _ _ _ _ _ _ _ Hc He).
    eexists. split; [reflexivity|].
    split; [apply failed_result_success|].
    split; [apply Hfailed | apply failed_result_error].
  - intros self Hc He.
    rewrite (ollama_search_backend_failure _ _ _ _ _ _ Hc He).
    eexists. split; [reflexivity|].
    split; [apply failed_result_success|].
    split; [apply Hfailed | apply failed_result_error].
Qed.

Lemma backend_exception_becomes_failed_result_witness :
  exists r : search_result,
    claude_search anthropic_down_backend example_claude "Woodstock new venue"
      example_query keyed_world = (Ok r, advance (advance keyed_world), []) /\
    r !! "success" = Some (VBool false) /\
    r !! "error" = Some (VStr "connection refused").
Proof.
  destruct (backend_exception_becomes_failed_result anthropic_down_backend
              "Woodstock new venue" example_query keyed_world
              (backend_error "connection refused")) as (H & _ & _).
  destruct (H example_claude (AnthropicClient (Some "sk-ant-test")) eq_refl eq_refl)
    as (r & Hs & Hsucc & _ & Herr).
  exists r. split; [exact Hs|]. split; [exact Hsucc | exact Herr].
Defined.

(** ** Construction and validation *)

(** X4. A Claude provider validates exactly when the SDK is installed and
    the key was set, to a non-empty value, both when the provider was
    constructed and when it is validated: a provider constructed before the
    key was set does not validate afterwards. *)
Theorem claude_validates_iff env cfg w self w1 t1 w2 :
  ClaudeProvider_init env cfg w = (Ok self, w1, t1) ->
  exists ok,
    claude_validate_config env self w2 = (Ok ok, w2, []) /\
    (ok = true <->
       anthropic_pkg env = true /\
       env_var_set w ANTHROPIC_API_KEY /\
       env_var_set w2 ANTHROPIC_API_KEY).
Proof.
  unfold ClaudeProvider_init, bind, fresh_id, environ_get, ret, env_var_set,
    ANTHROPIC_API_KEY.
  cbn [fst snd w_environ]. intros [= <- _ _].
  unfold claude_validate_config, bind, environ_get, ret. cbn [cl_client].
  destruct (anthropic_pkg env); cbn [negb].
  - destruct (error_truthy (w_environ w2 !! "ANTHROPIC_API_KEY")); cbn [negb].
    + destruct (error_truthy (w_environ w !! "ANTHROPIC_API_KEY")); cbn [andb];
        eexists; (split; [reflexivity|]); intuition discriminate.
    + eexists. split; [reflexivity|]. intuition discriminate.
  - eexists. split; [reflexivity|]. intuition discriminate.
Qed.

Lemma claude_validates_iff_witness :
  exists self w1,
    ClaudeProvider_init (anthropic_backend "The Colony") empty_config empty_world =
      (Ok self, w1, []) /\
    claude_validate_config (anthropic_backend "The Colony") self keyed_world =
      (Ok false, keyed_world, []).
Proof.
  do 2 eexists. split; [reflexivity|].
  destruct (claude_validates_iff (anthropic_backend "The Colony") empty_config
              empty_world _ _ _ keyed_world eq_refl) as (ok & Hv & Hiff).
  rewrite Hv. destruct ok; [|reflexivity].
  destruct Hiff as [Hiff _]. destruct (Hiff eq_refl) as (_ & Hset & _).
  discriminate Hset.
Defined.

(** X5. Whatever model is configured, the model of a constructed
    OpenRouter provider contains [:online]: a configured model that
    contains it anywhere is kept as it is, any other gets it appended. *)
Theorem openrouter_model_is_online env cfg w :
  exists self w',
    OpenRouterProvider_init env cfg w = (Ok self, w', []) /\
    str_contains ":online" (orp_model self) = true /\
    orp_model self =
      (if str_contains ":online" (configured_openrouter_model cfg)
       then configured_openrouter_model cfg
       else configured_openrouter_model cfg ++ ":online").
Proof.
  unfold OpenRouterProvider_init, bind, fresh_id, environ_get, ret.
  cbn [fst snd]. fold (configured_openrouter_model cfg).
  do 2 eexists. split; [reflexivity|]. cbn [orp_model].
  destruct (str_contains ":online" (configured_openrouter_model cfg)) eqn:Hc;
    cbn [negb].
  - split; [exact Hc | reflexivity].
  - split; [|reflexivity].
    apply str_contains_app_r. reflexivity.
Qed.

Lemma env_vars_set_iff env_vars w :
  exists ok,
    env_vars_set env_vars w = (Ok ok, w, []) /\
    (ok = true <-> Forall (env_var_set w) env_vars).
Proof.
  induction env_vars as [|v rest IH]; cbn [env_vars_set].
  - exists true. split; [reflexivity|]. split; [constructor | reflexivity].
  - unfold bind, environ_get. cbn [fst snd].
    destruct (error_truthy (w_environ w !! v)) eqn:Hv; cbn [negb].
    + destruct IH as (ok & -> & Hiff). exists ok. split; [reflexivity|].
      rewrite Hiff. split.
      * intros H. constructor; [exact Hv | exact H].
      * intros H. inversion H; assumption.
    + exists false. split; [reflexivity|]. split; [discriminate|].
      intros H. inversion H as [|? ? Hset _]. unfold env_var_set in Hset.
      congruence.
Qed.

(** X6. The MCP provider validates exactly when the MCP package is
    installed, the SDK for its kind of model is installed, and every
    variable named by [get_required_env_vars] is set to a non-empty value;
    validation reads the environment and changes nothing. *)
Theorem mcp_validates_iff env self w :
  exists ok,
    mcp_validate_config env self w = (Ok ok, w, []) /\
    (ok = true <->
       mcp_pkg env = true /\
       (mcp_llm_type self = "claude" -> anthropic_pkg env = true) /\
       (mcp_llm_type self = "openai" -> openai_pkg env = true) /\
       Forall (env_var_set w) (mcp_required_env_vars self)).
Proof.
  unfold mcp_validate_config.
  destruct (mcp_pkg env); cbn [negb];
    [|exists false; split; [reflexivity | intuition discriminate]].
  destruct (String.eqb (mcp_llm_type self) "claude") eqn:Hc.
  - apply String.eqb_eq in Hc.
    destruct (anthropic_pkg env); cbn [negb andb].
    + assert (Ho : String.eqb (mcp_llm_type self) "openai" = false)
        by (rewrite Hc; reflexivity).
      rewrite Ho. cbn [andb].
      destruct (env_vars_set_iff (mcp_required_env_vars self) w) as (ok & -> & Hiff).
      exists ok. split; [reflexivity|]. rewrite Hiff.
      intuition (try reflexivity). rewrite Hc in *. discriminate.
    + exists false. split; [reflexivity|]. split; [discriminate|].
      intros (_ & H & _). specialize (H Hc). discriminate H.
  - cbn [andb].
    destruct (String.eqb (mcp_llm_type self) "openai") eqn:Ho.
    + apply String.eqb_eq in Ho.
      destruct (openai_pkg env); cbn [negb andb].
      * destruct (env_vars_set_iff (mcp_required_env_vars self) w)
          as (ok & -> & Hiff).
        exists ok. split; [reflexivity|]. rewrite Hiff.
        intuition (try reflexivity). rewrite Ho in *. discriminate.
      * exists false. split; [reflexivity|]. split; [discriminate|].
        intros (_ & _ & H & _). specialize (H Ho). discriminate H.
    + cbn [andb].
      destruct (env_vars_set_iff (mcp_required_env_vars self) w) as (ok & -> & Hiff).
      exists ok. split; [reflexivity|]. rewrite Hiff.
      apply String.eqb_neq in Hc, Ho. intuition congruence.
Qed.

Lemma mcp_validates_iff_witness :
  mcp_validate_config mcp_backend example_mcp keyed_world =
    (Ok true, keyed_world, []).
Proof.
  destruct (mcp_validates_iff mcp_backend example_mcp keyed_world)
    as (ok & Hv & Hiff).
  rewrite Hv. destruct Hiff as [_ Hiff]. rewrite Hiff; [reflexivity|].
  split; [reflexivity|]. split; [reflexivity|]. split; [discriminate|].
  repeat constructor.
Defined.

(** X7. Creating a provider changes the environment only for Ollama: the
    constructor of [OllamaProvider] sets [OLLAMA_HOST] to the configured
    base URL, which is [http://localhost:11434] when none is configured, so
    a value of [OLLAMA_HOST] set before is overwritten; an empty configured
    base URL leaves the environment alone. A name that is not registered
    changes nothing at all. *)
Theorem create_provider_environment env name cfg w :
  (forall p w' t,
     create_provider env name cfg w = (Ok p, w', t) ->
     match p with
     | POllama o =>
         olp_base_url o = configured_ollama_base_url cfg /\
         w_environ w' =
           (if str_truthy (olp_base_url o)
            then <["OLLAMA_HOST" := olp_base_url o]> (w_environ w)
            else w_environ w)
     | _ => w_environ w' = w_environ w
     end) /\
  (forall e w' t, create_provider env name cfg w = (Raise e, w', t) -> w' = w).
Proof.
  split.
  - intros p w' t.
    destruct (registry_lookup PROVIDERS (normalize_name name)) as [c|] eqn:Hc.
    + rewrite (create_provider_registered _ _ _ _ _ Hc).
      destruct c; unfold construct, ClaudeProvider_init, OpenRouterProvider_init,
        OllamaProvider_init, MCPProvider_init;
        unfold bind, fresh_id, environ_get, environ_set, ret; cbn [fst snd].
      * intros [= <- <- _]. reflexivity.
      * intros [= <- <- _]. reflexivity.
      * fold (configured_ollama_base_url cfg).
        destruct (str_truthy (configured_ollama_base_url cfg)) eqn:Hb;
          intros [= <- <- _]; cbn [olp_base_url]; rewrite Hb;
          (split; reflexivity).
      * intros [= <- <- _]. reflexivity.
    + rewrite (create_provider_unregistered _ _ _ _ Hc). discriminate.
  - intros e w' t H. apply (create_provider_raise _ _ _ _ _ _ _ H).
Qed.

Lemma create_provider_environment_witness :
  exists p w',
    create_provider offline_backend "ollama" empty_config remote_ollama_world =
      (Ok p, w', []) /\
    w_environ w' !! "OLLAMA_HOST" = Some "http://localhost:11434".
Proof.
  destruct (create_provider_environment offline_backend "ollama" empty_config
              remote_ollama_world) as [H _].
  do 2 eexists. split; [reflexivity|].
  specialize (H _ _ _ eq_refl). cbn beta iota in H. destruct H as [_ H].
  rewrite H. reflexivity.
Defined.

Lemma model_names_entry_names models w :
  model_names models w =
    match entry_names models with
    | Some names => (Ok names, w, [])
    | None => (Raise (Exn "KeyError" "'name'"), w, [])
    end.
Proof.
  induction models as [|[n|] rest IH]; cbn [model_names entry_names];
    [reflexivity | | reflexivity].
  unfold bind. rewrite IH. destruct (entry_names rest); reflexivity.
Qed.

(** X8. The Ollama provider validates exactly when the package is
    installed, [ollama.list()] answers, every entry of the answer has a
    name, and the configured model is among the names. A service that
    cannot be reached, or one entry without a name, gives [False] and no
    exception. *)
Theorem ollama_validates_iff env self w :
  exists ok w',
    ollama_validate_config env self w = (Ok ok, w', []) /\
    same_but_clock w w' /\
    (ok = true <->
       ollama_pkg env = true /\
       exists models names,
         ollama_list env (w_tick w) = inr models /\
         entry_names models = Some names /\
         In (olp_model self) names).
Proof.
  unfold ollama_validate_config.
  destruct (ollama_pkg env); cbn [negb].
  - unfold try_except, bind, external.
    destruct (ollama_list env (w_tick w)) as [e | models] eqn:Hl; cbv beta iota.
    + do 2 eexists. split; [reflexivity|]. split; [apply same_but_clock_advance|].
      split; [discriminate|]. intros (_ & models & names & Hm & _). discriminate Hm.
    + rewrite model_names_entry_names.
      destruct (entry_names models) as [names|] eqn:Hn; cbv beta iota.
      * destruct (str_in (olp_model self) names) eqn:Hin; cbn [negb];
          do 2 eexists; (split; [reflexivity|]);
          (split; [apply same_but_clock_advance|]).
        -- split; [intros _ | reflexivity]. split; [reflexivity|].
           exists models, names. split; [reflexivity|]. split; [exact Hn|].
           unfold str_in in Hin. apply existsb_exists in Hin as (x & Hx & He).
           apply String.eqb_eq in He. subst x. exact Hx.
        -- split; [discriminate|].
           intros (_ & models' & names' & [= <-] & Hn' & Hi).
           rewrite Hn in Hn'. injection Hn' as <-.
           assert (str_in (olp_model self) names = true) as Hin'.
           { unfold str_in. apply existsb_exists. exists (olp_model self).
             split; [exact Hi | apply String.eqb_refl]. }
           congruence.
      * do 2 eexists. split; [reflexivity|].
        split; [apply same_but_clock_advance|].
        split; [discriminate|].
        intros (_ & models' & names' & [= <-] & Hn' & _). congruence.
  - do 2 eexists. split; [reflexivity|]. split; [apply same_but_clock_refl|].
    split; [discriminate|]. intros [H _]. discriminate H.
Qed.

Lemma ollama_validates_iff_witness :
  exists w',
    ollama_validate_config ollama_odd_list_backend example_ollama empty_world =
      (Ok false, w', []).
Proof.
  destruct (ollama_validates_iff ollama_odd_list_backend example_ollama empty_world)
    as (ok & w' & Hv & _ & Hiff).
  exists w'. rewrite Hv. destruct ok; [|reflexivity].
  destruct Hiff as [Hiff _].
  destruct (Hiff eq_refl) as (_ & models & names & [= <-] & Hn & _).
  discriminate Hn.
Defined.

(** ** The query builder *)

Lemma for_each_in {A B} (body : A -> outcome (list B)) l zs z :
  for_each body l = Ok zs -> In z zs ->
  exists x ys, In x l /\ body x = Ok ys /\ In z ys.
Proof.
  revert zs. induction l as [|x rest IH]; intros zs; cbn [for_each].
  - intros [= <-] [].
  - destruct (body x) as [ys|e|c] eqn:Hx; cbn [obind]; try discriminate.
    destruct (for_each body rest) as [zs'|e|c] eqn:Hr; cbn [obind]; try discriminate.
    intros [= <-] Hin. apply in_app_or in Hin as [Hin | Hin].
    + exists x, ys. split; [left; reflexivity | auto].
    + destruct (IH zs' eq_refl Hin) as (x' & ys' & Hx' & Hb & Hz).
      exists x', ys'. split; [right; exact Hx' | auto].
Qed.

Lemma for_each_length {A B} (body : A -> outcome (list B)) (k : A -> nat) l zs :
  (forall x ys, In x l -> body x = Ok ys -> (length ys <= k x)%nat) ->
  for_each body l = Ok zs ->
  (length zs <= list_sum (map k l))%nat.
Proof.
  revert zs. induction l as [|x rest IH]; intros zs Hk; cbn [for_each].
  - intros [= <-]. cbn. lia.
  - destruct (body x) as [ys|e|c] eqn:Hx; cbn [obind]; try discriminate.
    destruct (for_each body rest) as [zs'|e|c] eqn:Hr; cbn [obind]; try discriminate.
    intros [= <-]. rewrite List.length_app.
    pose proof (Hk x ys (or_introl eq_refl) Hx).
    assert ((length zs' <= list_sum (map k rest))%nat).
    { apply IH; [|reflexivity]. intros x' ys' Hin. apply Hk. right. exact Hin. }
    change (list_sum (map k (x :: rest))) with (k x + list_sum (map k rest))%nat.
    lia.
Qed.

Lemma for_each_nil {A B} (body : A -> outcome (list B)) l :
  (forall x, In x l -> body x = Ok []) -> for_each body l = Ok [].
Proof.
  induction l as [|x rest IH]; intros H; cbn [for_each]; [reflexivity|].
  rewrite (H x (or_introl eq_refl)). cbn [obind].
  rewrite IH; [reflexivity|]. intros x' Hin. apply H. right. exact Hin.
Qed.

Lemma template_queries_shape env templates region_name priority city ty qs :
  template_queries env templates region_name priority city ty = Ok qs ->
  (length qs <= 1)%nat /\
  forall q, In q qs ->
    q_type q = ty /\ q_region q = region_name /\ q_city q = city /\
    q_priority q = priority.
Proof.
  unfold template_queries. destruct (default [] (templates !! ty)) as [|t ts].
  - intros [= <-]. split; [cbn; lia | intros q []].
  - destruct (str_format env t city region_name) as [s|e|c]; cbn [obind];
      try discriminate.
    intros [= <-]. split; [cbn; lia|].
    intros q [<- | []]. repeat split.
Qed.

Lemma city_queries_length env templates region_name priority city ys :
  for_each (template_queries env templates region_name priority city)
    ["new_venues"; "booking_opportunities"] = Ok ys ->
  (length ys <= 2)%nat.
Proof.
  intros H.
  apply (for_each_length _ (fun _ => 1%nat)) in H; [exact H|].
  intros ty zs _ Ht. apply (template_queries_shape _ _ _ _ _ _ _ Ht).
Qed.

Lemma region_queries_shape env templates region qs :
  region_queries env templates region = Ok qs ->
  (length qs <= 2 * length (used_cities (snd region)))%nat /\
  forall q, In q qs -> query_of_region region q.
Proof.
  unfold region_queries. fold (used_cities (snd region)). intros H. split.
  - assert (Hlen : (length qs <=
                    list_sum (map (fun _ : string => 2%nat) (used_cities (snd region))))%nat).
    { eapply for_each_length; [|exact H].
      intros city ys _ Hc. eapply city_queries_length, Hc. }
    clear H. induction (used_cities (snd region)) as [|c cs IH]; [exact Hlen|].
    change (list_sum (map (fun _ : string => 2%nat) (c :: cs)))
      with (2 + list_sum (map (fun _ : string => 2%nat) cs))%nat in Hlen.
    cbn [length].
    assert (list_sum (map (fun _ : string => 2%nat) cs) = 2 * length cs)%nat as Hs.
    { clear. induction cs as [|c cs IH]; [reflexivity|].
      change (list_sum (map (fun _ : string => 2%nat) (c :: cs)))
        with (2 + list_sum (map (fun _ : string => 2%nat) cs))%nat.
      cbn [length]. lia. }
    lia.
  - intros q Hq.
    destruct (for_each_in _ _ _ _ H Hq) as (city & ys & Hcity & Hc & Hin).
    destruct (for_each_in _ _ _ _ Hc Hin) as (ty & zs & Hty & Ht & Hin').
    destruct (template_queries_shape _ _ _ _ _ _ _ Ht) as [_ Hs].
    destruct (Hs q Hin') as (H1 & H2 & H3 & H4).
    repeat split; try assumption.
    + rewrite H3. exact Hcity.
    + rewrite H1. destruct Hty as [<- | [<- | []]]; auto.
Qed.

Lemma list_sum_double {A} (f : A -> nat) l :
  list_sum (map (fun x => 2 * f x)%nat l) = (2 * list_sum (map f l))%nat.
Proof.
  induction l as [|x rest IH]; [reflexivity|].
  change (list_sum (map (fun x => 2 * f x)%nat (x :: rest)))
    with (2 * f x + list_sum (map (fun x => 2 * f x)%nat rest))%nat.
  change (list_sum (map f (x :: rest))) with (f x + list_sum (map f rest))%nat.
  lia.
Qed.

Lemma generated_queries_shape env cfg all :
  generated_queries env cfg = Ok all ->
  (length all <= 2 * city_budget cfg)%nat /\
  forall q, In q all -> exists region, In region (config_regions cfg) /\
                                       query_of_region region q.
Proof.
  unfold generated_queries. fold (config_regions cfg). intros H. split.
  - assert (Hlen : (length all <=
      list_sum (map (fun region => 2 * length (used_cities (snd region)))
                  (config_regions cfg)))%nat).
    { eapply for_each_length; [|exact H].
      intros region ys _ Hr. apply (region_queries_shape _ _ _ _ Hr). }
    unfold city_budget. rewrite list_sum_double in Hlen. exact Hlen.
  - intros q Hq.
    destruct (for_each_in _ _ _ _ H Hq) as (region & ys & Hin & Hr & Hy).
    exists region. split; [exact Hin|].
    apply (region_queries_shape _ _ _ _ Hr). exact Hy.
Qed.

Lemma used_cities_length rd : (length (used_cities rd) <= 3)%nat.
Proof. unfold used_cities. rewrite length_firstn. lia. Qed.

Lemma city_budget_bound cfg : (city_budget cfg <= 3 * length (config_regions cfg))%nat.
Proof.
  unfold city_budget. induction (config_regions cfg) as [|r rs IH]; [cbn; lia|].
  change (list_sum (map (fun region => length (used_cities (snd region))) (r :: rs)))
    with (length (used_cities (snd r)) +
          list_sum (map (fun region => length (used_cities (snd region))) rs))%nat.
  pose proof (used_cities_length (snd r)). cbn [length]. lia.
Qed.

Lemma slice_to_incl {A} (limit : Z) (l : list A) x : In x (slice_to limit l) -> In x l.
Proof.
  unfold slice_to. destruct (0 <=? limit); intros H.
  - rewrite <- (firstn_skipn (Z.to_nat limit) l). apply in_or_app. left. exact H.
  - rewrite <- (firstn_skipn (Z.to_nat (Z.of_nat (length l) + limit)) l).
    apply in_or_app. left. exact H.
Qed.

Lemma slice_to_length {A} (limit : Z) (l : list A) :
  (length (slice_to limit l) <= length l)%nat.
Proof. unfold slice_to. destruct (0 <=? limit); rewrite length_firstn; lia. Qed.

(** X9. Every query the builder returns comes from a region of the
    configuration: it carries that region's name (its key when it has no
    name) and priority (5 when it has none), its city is one of the first
    three cities of the region, and its type is [new_venues] or
    [booking_opportunities]. There are at most two queries for every city
    used, hence at most six for every region. *)
Theorem build_search_queries_provenance env cfg limit queries :
  build_search_queries env cfg limit = Ok queries ->
  (forall q, In q queries ->
     exists region, In region (config_regions cfg) /\ query_of_region region q) /\
  (length queries <= 2 * city_budget cfg)%nat /\
  (length queries <= 6 * length (config_regions cfg))%nat.
Proof.
  unfold build_search_queries.
  destruct (generated_queries env cfg) as [all|e|c] eqn:Hg; cbn [obind];
    try discriminate.
  intros [= <-]. destruct (generated_queries_shape _ _ _ Hg) as [Hlen Hq].
  pose proof (slice_to_length limit (sort_by_priority all)) as Hs.
  rewrite (Permutation_length (sort_by_priority_perm all)) in Hs.
  pose proof (city_budget_bound cfg).
  split; [|split; lia].
  intros q Hin. apply Hq.
  apply (Permutation_in _ (sort_by_priority_perm all)).
  eapply slice_to_incl, Hin.
Qed.

Lemma build_search_queries_provenance_witness :
  exists queries,
    build_search_queries offline_backend two_region_config 10 = Ok queries /\
    (length queries <= 4)%nat.
Proof.
  eexists. split; [reflexivity|].
  destruct (build_search_queries_provenance offline_backend two_region_config 10
              _ eq_refl) as (_ & H & _).
  exact H.
Defined.

(** X10. The limit at its edges: a limit at or above the number of
    queries produced returns all of them, sorted; a negative limit does
    not return an empty list but drops that many queries from the end of
    the sorted list (as the slice [queries[:limit]] does). *)
Theorem build_search_queries_limit_edges env cfg all limit :
  generated_queries env cfg = Ok all ->
  (Z.of_nat (length all) <= limit ->
     build_search_queries env cfg limit = Ok (sort_by_priority all)) /\
  (limit < 0 ->
     exists emitted dropped,
       build_search_queries env cfg limit = Ok emitted /\
       sort_by_priority all = (emitted ++ dropped)%list /\
       length dropped = Nat.min (length all) (Z.to_nat (- limit))).
Proof.
  intros Hg. unfold build_search_queries. rewrite Hg. cbn [obind].
  pose proof (Permutation_length (sort_by_priority_perm all)) as Hlen.
  split.
  - intros Hle. rewrite slice_to_nonneg by lia.
    rewrite firstn_all2; [reflexivity | lia].
  - intros Hneg. unfold slice_to.
    destruct (0 <=? limit) eqn:E; [apply Z.leb_le in E; lia|].
    exists (firstn (Z.to_nat (Z.of_nat (length (sort_by_priority all)) + limit))
              (sort_by_priority all)),
           (skipn (Z.to_nat (Z.of_nat (length (sort_by_priority all)) + limit))
              (sort_by_priority all)).
    split; [reflexivity|]. split; [symmetry; apply firstn_skipn|].
    rewrite length_skipn. lia.
Qed.

Lemma build_search_queries_limit_edges_witness :
  exists emitted dropped,
    build_search_queries offline_backend hudson_valley_config (-1) = Ok emitted /\
    sort_by_priority hudson_valley_queries = (emitted ++ dropped)%list /\
    length dropped = 1%nat.
Proof.
  destruct (build_search_queries_limit_edges offline_backend hudson_valley_config
              hudson_valley_queries (-1) eq_refl) as [_ H].
  destruct H as (emitted & dropped & Hb & Hs & Hl); [lia|].
  exists emitted, dropped. auto.
Defined.

(** X11. A configuration with no template for [new_venues] and none for
    [booking_opportunities] gives the empty list of queries, whatever its
    regions and the limit: a missing [search_templates] table is no
    error. *)
Theorem build_search_queries_without_templates env cfg limit :
  config_templates cfg "new_venues" = [] ->
  config_templates cfg "booking_opportunities" = [] ->
  build_search_queries env cfg limit = Ok [].
Proof.
  unfold config_templates. intros Hn Hb.
  assert (Hg : generated_queries env cfg = Ok []).
  { unfold generated_queries. apply for_each_nil. intros region _.
    unfold region_queries. apply for_each_nil. intros city _.
    apply for_each_nil. intros ty [<- | [<- | []]];
      unfold template_queries; [rewrite Hn | rewrite Hb]; reflexivity. }
  unfold build_search_queries. rewrite Hg. cbn [obind sort_by_priority].
  unfold slice_to. destruct (0 <=? limit); rewrite firstn_nil; reflexivity.
Qed.

Lemma build_search_queries_without_templates_witness :
  build_search_queries offline_backend
    (Config None (cfg_regions hudson_valley_config) None) 10 = Ok [].
Proof.
  apply build_search_queries_without_templates; reflexivity.
Defined.

(** ** Runs *)

Lemma execute_searches_build_raises env provider cfg max_queries w e :
  build_search_queries env cfg max_queries = Raise e ->
  execute_searches env provider cfg max_queries w = (Raise e, w, []).
Proof. intros H. unfold execute_searches, bind, lift. rewrite H. reflexivity. Qed.

Lemma fallback_attempt_build_raises env cfg max_queries name w e :
  build_search_queries env cfg max_queries = Raise e ->
  exists w' t,
    fallback_attempt env cfg max_queries name w = (Ok None, w', t) /\
    Forall is_validation t /\
    w_files w' = w_files w.
Proof.
  intros Hb.
  destruct (candidate_cases env cfg name w)
    as [[e' Hc] | (p & w1 & ok & w2 & Hc & _ & _ & _ & Hf1 & Hv & _ & _ & Hf2)].
  - rewrite (fallback_attempt_unconstructed _ _ _ _ _ _ _ _ Hc).
    do 2 eexists. split; [reflexivity|]. split; [constructor | reflexivity].
  - destruct ok.
    + rewrite (fallback_attempt_valid _ _ _ _ _ _ _ _ _ _ Hc Hv).
      rewrite (execute_searches_build_raises _ _ _ _ _ _ Hb).
      do 2 eexists. split; [reflexivity|].
      split; [repeat constructor | congruence].
    + rewrite (fallback_attempt_invalid _ _ _ _ _ _ _ _ _ _ Hc Hv).
      do 2 eexists. split; [reflexivity|].
      split; [repeat constructor | congruence].
Qed.

Lemma try_fallbacks_build_raises env cfg max_queries e names :
  build_search_queries env cfg max_queries = Raise e ->
  forall w,
    exists w' t,
      try_fallbacks env cfg max_queries names w = (Ok None, w', t) /\
      Forall is_validation t /\
      w_files w' = w_files w.
Proof.
  intros Hb. induction names as [|name rest IH]; intros w.
  - do 2 eexists. split; [reflexivity|]. split; [constructor | reflexivity].
  - destruct (fallback_attempt_build_raises env cfg max_queries name w e Hb)
      as (w1 & t1 & Ha & Ht1 & Hf1).
    destruct (IH w1) as (w2 & t2 & Hr & Ht2 & Hf2).
    rewrite try_fallbacks_cons, Ha, Hr. cbn [prepend].
    do 2 eexists. split; [reflexivity|].
    split; [apply Forall_app; split; assumption | congruence].
Qed.

(** X12. When the queries cannot be built (a template that [format]
    rejects), the run ends with [sys.exit(1)] even if a provider
    validates: every provider that validates is counted as failed, no
    search is made and no results file is written. *)
Theorem run_daily_searches_build_failure env cfg max_queries provider_name w e :
  build_search_queries env cfg max_queries = Raise e ->
  exists w' t,
    run_daily_searches env cfg max_queries provider_name w = (SysExit 1, w', t) /\
    Forall is_validation t /\
    w_files w' = w_files w.
Proof.
  intros Hb.
  assert (Hafter : forall w0, exists w' t,
    after_primary_failure env cfg max_queries w0 = (SysExit 1, w', t) /\
    Forall is_validation t /\ w_files w' = w_files w0).
  { intros w0.
    destruct (try_fallbacks_build_raises env cfg max_queries e (fallback_names cfg)
                Hb w0) as (w' & t & Hr & Ht & Hf).
    exists w', t. split; [|auto].
    unfold after_primary_failure, bind. rewrite Hr. unfold sys_exit.
    rewrite app_nil_r. reflexivity. }
  destruct (candidate_cases env cfg (primary_name cfg provider_name) w)
    as [[e' Hc] | (p & w1 & ok & w2 & Hc & _ & _ & _ & Hf1 & Hv & _ & _ & Hf2)].
  - rewrite (run_daily_unconstructed _ _ _ _ _ _ _ _ Hc).
    destruct (Hafter w) as (w' & t & -> & Ht & Hf).
    do 2 eexists. split; [reflexivity | auto].
  - destruct ok.
    + rewrite (run_daily_valid _ _ _ _ _ _ _ _ _ _ Hc Hv).
      rewrite (execute_searches_build_raises _ _ _ _ _ _ Hb).
      destruct (Hafter w2) as (w' & t & -> & Ht & Hf).
      do 2 eexists. split; [reflexivity|].
      split; [constructor; [exact I | exact Ht] | congruence].
    + rewrite (run_daily_invalid _ _ _ _ _ _ _ _ _ _ Hc Hv).
      destruct (Hafter w2) as (w' & t & -> & Ht & Hf).
      do 2 eexists. split; [reflexivity|].
      split; [constructor; [exact I | exact Ht] | congruence].
Qed.

Lemma run_daily_searches_build_failure_witness :
  exists w',
    run_daily_searches (ollama_backend "The Colony") bad_template_config 10 None
      empty_world =
      (SysExit 1, w', [EvValidate 0 true; EvValidate 1 true]).
Proof.
  destruct (run_daily_searches_build_failure (ollama_backend "The Colony")
              bad_template_config 10 None empty_world (Exn "KeyError" "'town'")
              eq_refl) as (w' & t & Hr & _ & _).
  exists w'. rewrite Hr. vm_compute in Hr. injection Hr as _ <-. reflexivity.
Defined.






(** ** More on searches *)

(** X15. A search changes neither the variables a provider asks for nor
    its name: [get_required_env_vars] and [get_provider_name] answer the
    same before and after any search. *)
Theorem search_keeps_requirements env p query qi w :
  exists r p' w',
    provider_search env p query qi w =
      (Ok (r, p'), w', [EvSearch (provider_id env p) query]) /\
    provider_required_env_vars env p' = provider_required_env_vars env p /\
    get_provider_name env p' = get_provider_name env p.
Proof.
  destruct (provider_search_run env p query qi w) as (r & p' & w' & Hs & Hf & _).
  exists r, p', w'. split; [exact Hs|].
  split; [|apply provider_frame_name, Hf].
  destruct p, p'; cbn [provider_frame] in Hf; try contradiction;
    try (rewrite Hf; reflexivity).
  destruct Hf as [Hsame _]. rewrite Hsame. reflexivity.
Qed.

(** X16. Once both client handles of an MCP provider are set, a search
    leaves the provider object exactly as it was: the clients are created
    at most once. *)
Theorem warm_mcp_search_keeps_provider env self query qi w :
  is_Some (mcp_mcp_client self) ->
  is_Some (mcp_llm_client self) ->
  exists r w',
    provider_search env (PMCP self) query qi w =
      (Ok (r, PMCP self), w', [EvSearch (mcp_id self) query]).
Proof.
  intros [c1 H1] [c2 H2].
  destruct (provider_search_run env (PMCP self) query qi w)
    as (r & p' & w' & Hs & Hf & _).
  destruct p' as [?|?|?|self']; cbn [provider_frame] in Hf; try contradiction.
  destruct Hf as [Hsame [Hk1 Hk2]].
  assert (self' = self) as ->.
  { rewrite Hsame, (Hk1 _ H1), (Hk2 _ H2), <- H1, <- H2.
    destruct self; reflexivity. }
  exists r, w'. exact Hs.
Qed.

Lemma warm_mcp_search_keeps_provider_witness :
  exists r w',
    provider_search anthropic_down_backend (PMCP warm_mcp) "Woodstock new venue"
      example_query keyed_world =
      (Ok (r, PMCP warm_mcp), w', [EvSearch 0%nat "Woodstock new venue"]).
Proof.
  apply (warm_mcp_search_keeps_provider anthropic_down_backend warm_mcp);
    eexists; reflexivity.
Defined.


(** ** What a search and a batch change in the world *)












(** ** What the builder reads *)

Lemma for_each_ext {A B} (f g : A -> outcome (list B)) l :
  (forall x, In x l -> f x = g x) -> for_each f l = for_each g l.
Proof.
  induction l as [|x rest IH]; intros H; cbn [for_each]; [reflexivity|].
  rewrite (H x (or_introl eq_refl)), IH; [reflexivity|].
  intros x' Hin. apply H. right. exact Hin.
Qed.

Lemma template_queries_first env templates templates' region_name priority city ty :
  hd_error (default [] (templates !! ty)) = hd_error (default [] (templates' !! ty)) ->
  template_queries env templates region_name priority city ty =
    template_queries env templates' region_name priority city ty.
Proof.
  unfold template_queries.
  destruct (default [] (templates !! ty)) as [|t ts],
           (default [] (templates' !! ty)) as [|t' ts']; cbn [hd_error];
    try discriminate; [reflexivity|]. intros [= <-]. reflexivity.
Qed.

(** X20. The builder reads only the first template of [new_venues] and of
    [booking_opportunities] and only the first three cities of every
    region: two configurations that agree on these (and on the keys, names
    and priorities of their regions) give the same queries, for every
    limit. Further templates, other template types and further cities are
    ignored. *)
Theorem build_search_queries_reads env cfg cfg' limit :
  Forall2 same_used_region (config_regions cfg) (config_regions cfg') ->
  first_template cfg "new_venues" = first_template cfg' "new_venues" ->
  first_template cfg "booking_opportunities" =
    first_template cfg' "booking_opportunities" ->
  build_search_queries env cfg limit = build_search_queries env cfg' limit.
Proof.
  unfold first_template, config_templates. intros Hr Hn Hb.
  assert (Hg : generated_queries env cfg = generated_queries env cfg').
  { unfold generated_queries. fold (config_regions cfg) (config_regions cfg').
    induction Hr as [|r r' rs rs' (Hk & Hname & Hprio & Hcities) _ IH];
      [reflexivity|].
    cbn [for_each]. rewrite IH. f_equal.
    unfold region_queries. fold (used_cities (snd r)) (used_cities (snd r')).
    rewrite Hk, Hname, Hprio, Hcities.
    apply for_each_ext. intros city _. apply for_each_ext.
    intros ty [<- | [<- | []]]; apply template_queries_first; assumption. }
  unfold build_search_queries. rewrite Hg. reflexivity.
Qed.

Lemma build_search_queries_reads_witness :
  build_search_queries offline_backend trimmed_config 10 = Ok hudson_valley_queries.
Proof.
  rewrite <- (build_search_queries_reads offline_backend hudson_valley_config
                trimmed_config 10).
  - reflexivity.
  - repeat constructor.
  - reflexivity.
  - reflexivity.
Defined.

(** ** The keys of the MCP provider *)

